(** * Transaction credit budgeting of ext4 with snapshots (fs/ext4/ext4_jbd2.h)

    A shallow embedding of the credit macros and of the inline wrappers the
    header defines around the jbd2 journal, with the properties the design
    document states about them.

    Conventions.
    - C [int] and [unsigned int] values are integers of [Z]; the result of an
      arithmetic operation is brought back into the 32-bit range by [sint]
      (two's complement, as the kernel is built) or [uint].
    - A [handle_t *] is its numeric identity, a number of [N]; the handle
      objects live in a heap, a finite map from addresses to records.
    - The jbd2 journal is an external collaborator: its entry points are the
      fields of [journal_ops], and every call the wrappers make is appended to
      the trace of the world.
    - The preprocessor switches of the header are the boolean fields of
      [kbuild]. *)

From Stdlib Require Import ZArith NArith Bool Lia.
From stdpp Require Import base option gmap.

Local Open Scope Z_scope.

(** ** C integer arithmetic *)

Module CInt.

Definition INT_MIN : Z := -2147483648.
Definition INT_MAX : Z := 2147483647.
Definition UINT_MAX : Z := 4294967295.

(** The value of an [int] expression whose mathematical value is [z]. *)
Definition sint (z : Z) : Z := (z + 2147483648) mod 4294967296 - 2147483648.

(** The value of an [unsigned int] expression whose mathematical value is [z]. *)
Definition uint (z : Z) : Z := z mod 4294967296.

Definition int_range (z : Z) : Prop := INT_MIN <= z <= INT_MAX.
Definition uint_range (z : Z) : Prop := 0 <= z <= UINT_MAX.

Definition int_add (a b : Z) : Z := sint (a + b).
Definition int_sub (a b : Z) : Z := sint (a - b).
Definition int_mul (a b : Z) : Z := sint (a * b).

Definition uint_add (a b : Z) : Z := uint (a + b).
Definition uint_sub (a b : Z) : Z := uint (a - b).
Definition uint_mul (a b : Z) : Z := uint (a * b).

(** C truth of an [int]. *)
Definition c_true (z : Z) : bool := negb (z =? 0).

(** The [int] a C comparison or [&&] yields. *)
Definition c_bool (b : bool) : Z := if b then 1 else 0.

End CInt.

Import CInt.

(** ** Build configuration and the superblock *)

(** What the build fixes outside the header: the preprocessor symbols it
    tests; [MAXQUOTAS], which <linux/quota.h> defines (the number of quota
    types); and the type of the h_base_credits and h_user_credits fields of
    handle_t, which <linux/jbd2.h> declares. The type is taken as an int or a
    narrower field: a read promotes to int, and [h_credits] is the conversion
    of an int to the type, applied at every store. *)
Record kbuild := {
  CONFIG_QUOTA : bool;
  CONFIG_EXT4_FS_SNAPSHOT : bool;
  CONFIG_EXT4_FS_SNAPSHOT_JOURNAL_CREDITS : bool;
  MAXQUOTAS : Z;
  h_credits : Z -> Z
}.

Definition h_credits_bits14 (z : Z) : Z := z mod 16384.

(** [v] is stored unchanged in a credit counter. *)
Definition credits_fit (K : kbuild) (v : Z) : Prop := h_credits K v = v.

(** Modelled from the spec: the three values of [data_journal_mode]; the
    constants EXT4_MOUNT_JOURNAL_DATA, EXT4_MOUNT_ORDERED_DATA and
    EXT4_MOUNT_WRITEBACK_DATA that [test_opt(sb, DATA_FLAGS)] is compared with
    are defined in ext4.h. *)
Inductive data_mode := EXT4_MOUNT_JOURNAL_DATA | EXT4_MOUNT_ORDERED_DATA
                     | EXT4_MOUNT_WRITEBACK_DATA.

Definition data_mode_eqb (a b : data_mode) : bool :=
  match a, b with
  | EXT4_MOUNT_JOURNAL_DATA, EXT4_MOUNT_JOURNAL_DATA
  | EXT4_MOUNT_ORDERED_DATA, EXT4_MOUNT_ORDERED_DATA
  | EXT4_MOUNT_WRITEBACK_DATA, EXT4_MOUNT_WRITEBACK_DATA => true
  | _, _ => false
  end.

(** Modelled from the spec: [FilesystemConfig]. The superblock is read through
    macros of ext4.h and snapshot.h only; each field is the value of one of
    them:
    - [s_extents]: EXT4_HAS_INCOMPAT_FEATURE(sb, EXT4_FEATURE_INCOMPAT_EXTENTS)
    - [s_opt_quota]: test_opt(sb, QUOTA)
    - [s_snapshots]: EXT4_SNAPSHOTS(sb)
    - [s_data_flags]: test_opt(sb, DATA_FLAGS)
    - [s_opt_dioread_nolock]: test_opt(sb, DIOREAD_NOLOCK)
    - [s_journal]: EXT4_SB(sb)->s_journal != NULL *)
Record super_block := {
  s_extents : bool;
  s_opt_quota : bool;
  s_snapshots : bool;
  s_data_flags : data_mode;
  s_opt_dioread_nolock : bool;
  s_journal : bool
}.

Definition EXT4_SNAPSHOTS (sb : super_block) : bool := s_snapshots sb.

(** ** The credit macros *)

Section Credits.

Variable K : kbuild.

(** 27U or 8U *)
Definition EXT4_SINGLEDATA_TRANS_BLOCKS (sb : super_block) : Z :=
  if s_extents sb then 27 else 8.

Definition EXT4_XATTR_TRANS_BLOCKS : Z := 6.

Definition EXT4_QUOTA_TRANS_BLOCKS (sb : super_block) : Z :=
  if CONFIG_QUOTA K then (if s_opt_quota sb then 1 else 0) else 0.

(** an [int] product *)
Definition EXT4_MAXQUOTAS_TRANS_BLOCKS (sb : super_block) : Z :=
  int_mul (MAXQUOTAS K) (EXT4_QUOTA_TRANS_BLOCKS sb).

(** The sum is unsigned: its first operand is. *)
Definition EXT4_DATA_TRANS_BLOCKS (sb : super_block) : Z :=
  uint_add
    (uint_sub (uint_add (EXT4_SINGLEDATA_TRANS_BLOCKS sb) EXT4_XATTR_TRANS_BLOCKS) 2)
    (uint (EXT4_MAXQUOTAS_TRANS_BLOCKS sb)).

Definition EXT4_META_TRANS_BLOCKS (sb : super_block) : Z :=
  uint_add EXT4_XATTR_TRANS_BLOCKS (uint (EXT4_MAXQUOTAS_TRANS_BLOCKS sb)).

Definition EXT4_DELETE_TRANS_BLOCKS (sb : super_block) : Z :=
  uint_add (uint_mul 2 (EXT4_DATA_TRANS_BLOCKS sb)) 64.

Definition EXT4_MAX_TRANS_DATA : Z := 64.

End Credits.

(** The snapshot COW credits (CONFIG_EXT4_FS_SNAPSHOT_JOURNAL_CREDITS). The
    constants are small. The two macros with an argument are given twice:
    [EXT4_SNAPSHOT_TRANS_BLOCKS] and [EXT4_SNAPSHOT_START_TRANS_BLOCKS] are
    the values of the expressions in the integers, the numbers the comment of
    the header speaks of and the statements below compare with; what the
    header computes, at type [int], is [EXT4_SNAPSHOT_TRANS_BLOCKS_int] and
    [EXT4_SNAPSHOT_START_TRANS_BLOCKS_int] further down, the only ones the
    wrappers use. The two agree exactly when the integer value fits in an
    int. *)

Definition EXT4_WRITE_CREDITS : Z := 1.
Definition EXT4_ALLOC_CREDITS : Z := 3.
Definition EXT4_COW_BITMAP_CREDITS : Z := 3 * EXT4_ALLOC_CREDITS.
Definition EXT4_COW_BLOCK_CREDITS : Z :=
  3 * EXT4_ALLOC_CREDITS + 2 * EXT4_WRITE_CREDITS.
Definition EXT4_COW_CREDITS : Z :=
  EXT4_COW_BLOCK_CREDITS + EXT4_COW_BITMAP_CREDITS.
Definition EXT4_SNAPSHOT_CREDITS : Z := 3 * EXT4_WRITE_CREDITS.

Definition EXT4_SNAPSHOT_TRANS_BLOCKS (n : Z) : Z :=
  n * (1 + EXT4_COW_CREDITS) + EXT4_SNAPSHOT_CREDITS.

Definition EXT4_SNAPSHOT_START_TRANS_BLOCKS (n : Z) : Z :=
  n * (1 + EXT4_COW_CREDITS) + 2 * EXT4_SNAPSHOT_CREDITS.

Definition EXT4_RESERVE_COW_CREDITS : Z :=
  EXT4_COW_CREDITS + EXT4_SNAPSHOT_CREDITS.

Definition EXT4_RESERVE_TRANS_BLOCKS : Z := 12.

(** The two macros as the header evaluates them, operation by operation at
    type [int]. *)
Definition EXT4_SNAPSHOT_TRANS_BLOCKS_int (n : Z) : Z :=
  int_add (int_mul n (1 + EXT4_COW_CREDITS)) EXT4_SNAPSHOT_CREDITS.

Definition EXT4_SNAPSHOT_START_TRANS_BLOCKS_int (n : Z) : Z :=
  int_add (int_mul n (1 + EXT4_COW_CREDITS)) (2 * EXT4_SNAPSHOT_CREDITS).

(** ** Transaction handles *)

Definition EXT4_NOJOURNAL_MAX_REF_COUNT : N := 4096.

(** [(unsigned long)handle < EXT4_NOJOURNAL_MAX_REF_COUNT] *)
Definition ext4_handle_valid (handle : N) : Z :=
  if (handle <? EXT4_NOJOURNAL_MAX_REF_COUNT)%N then 0 else 1.

(** Modelled from the spec: [TransactionHandle]. handle_t is declared in
    <linux/jbd2.h>; the record has the fields the wrappers touch.
    [h_buffer_credits] is the int the journal counts in; the values of
    [h_base_credits] and [h_user_credits] are kept in the type the build
    gives them ([h_credits] of [kbuild]).
    - [h_sb]: handle->h_transaction->t_journal->j_private
    - [h_tid]: handle->h_transaction->t_tid *)
Record handle_s := {
  h_sb : super_block;
  h_tid : Z;
  h_buffer_credits : Z;
  h_base_credits : Z;
  h_user_credits : Z;
  h_sync : bool;
  h_aborted : bool
}.

Definition set_h_buffer_credits (v : Z) (h : handle_s) : handle_s :=
  {| h_sb := h_sb h; h_tid := h_tid h; h_buffer_credits := v;
     h_base_credits := h_base_credits h; h_user_credits := h_user_credits h;
     h_sync := h_sync h; h_aborted := h_aborted h |}.

Definition set_h_base_credits (v : Z) (h : handle_s) : handle_s :=
  {| h_sb := h_sb h; h_tid := h_tid h; h_buffer_credits := h_buffer_credits h;
     h_base_credits := v; h_user_credits := h_user_credits h;
     h_sync := h_sync h; h_aborted := h_aborted h |}.

Definition set_h_user_credits (v : Z) (h : handle_s) : handle_s :=
  {| h_sb := h_sb h; h_tid := h_tid h; h_buffer_credits := h_buffer_credits h;
     h_base_credits := h_base_credits h; h_user_credits := v;
     h_sync := h_sync h; h_aborted := h_aborted h |}.

Definition set_h_sync (v : bool) (h : handle_s) : handle_s :=
  {| h_sb := h_sb h; h_tid := h_tid h; h_buffer_credits := h_buffer_credits h;
     h_base_credits := h_base_credits h; h_user_credits := h_user_credits h;
     h_sync := v; h_aborted := h_aborted h |}.

Definition set_h_aborted (v : bool) (h : handle_s) : handle_s :=
  {| h_sb := h_sb h; h_tid := h_tid h; h_buffer_credits := h_buffer_credits h;
     h_base_credits := h_base_credits h; h_user_credits := h_user_credits h;
     h_sync := h_sync h; h_aborted := v |}.

Definition set_h_tid (v : Z) (h : handle_s) : handle_s :=
  {| h_sb := h_sb h; h_tid := v; h_buffer_credits := h_buffer_credits h;
     h_base_credits := h_base_credits h; h_user_credits := h_user_credits h;
     h_sync := h_sync h; h_aborted := h_aborted h |}.

(** [(handle)->h_buffer_credits >= EXT4_SNAPSHOT_TRANS_BLOCKS(n) &&
     (handle)->h_user_credits >= (n)] *)
Definition EXT4_SNAPSHOT_HAS_TRANS_BLOCKS (h : handle_s) (n : Z) : Z :=
  c_bool ((EXT4_SNAPSHOT_TRANS_BLOCKS_int n <=? h_buffer_credits h)
          && (n <=? h_user_credits h)).

(** ** The journal collaborator *)

(** The entry points of jbd2 the header calls. Each takes the journal's own
    state and the handle object and returns them as the call left them.
    [jbd2_journal_start] returns a new handle (address and object) or an
    errno. *)
Record journal_ops (J : Type) := {
  jbd2_journal_start : J -> super_block -> Z -> (N * handle_s + Z) * J;
  jbd2_journal_extend : J -> handle_s -> Z -> Z * handle_s * J;
  jbd2_journal_restart : J -> handle_s -> Z -> Z * handle_s * J;
  is_handle_aborted : J -> handle_s -> Z
}.

Arguments jbd2_journal_start {J} _ _ _ _.
Arguments jbd2_journal_extend {J} _ _ _ _.
Arguments jbd2_journal_restart {J} _ _ _ _.
Arguments is_handle_aborted {J} _ _ _.

(** A call the wrappers made into the journal, with the credits asked for. *)
Inductive jcall :=
| JStart (credits : Z)
| JExtend (handle : N) (credits : Z)
| JRestart (handle : N) (credits : Z).

(** The state the wrappers run in: the handle objects by address, the
    journal, and the calls made into it so far (oldest first). *)
Record world (J : Type) := {
  w_heap : gmap N handle_s;
  w_journal : J;
  w_calls : list jcall
}.

Arguments w_heap {J} _.
Arguments w_journal {J} _.
Arguments w_calls {J} _.

Definition set_w_heap {J} (m : gmap N handle_s) (w : world J) : world J :=
  {| w_heap := m; w_journal := w_journal w; w_calls := w_calls w |}.

(** What the design document asks of the journal: a successful extend adds
    the credits asked for to the handle and nothing else, a refused extend
    leaves the handle as it was, a successful restart or start grants the
    credits asked for, and start hands out handles above the sentinel
    range. *)
Record journal_contract {J} (ops : journal_ops J) : Prop := {
  extend_granted : forall j h n h' j',
    jbd2_journal_extend ops j h n = (0, h', j') ->
    h' = set_h_buffer_credits (int_add (h_buffer_credits h) n) h;
  extend_refused : forall j h n err h' j',
    jbd2_journal_extend ops j h n = (err, h', j') -> err <> 0 -> h' = h;
  restart_granted : forall j h n h' j',
    jbd2_journal_restart ops j h n = (0, h', j') ->
    h_buffer_credits h' = n /\ h_sb h' = h_sb h;
  start_granted : forall j sb n p h j',
    jbd2_journal_start ops j sb n = (inl (p, h), j') ->
    h_buffer_credits h = n /\ h_sb h = sb /\ ext4_handle_valid p = 1
}.

(** ** The inline wrappers *)

Section Wrappers.

Variable K : kbuild.
Context {J : Type}.
Variable ops : journal_ops J.

(** The object a valid handle points to; [None] when no handle object lives
    at that address (the C code would read freed or foreign memory). *)
Definition deref (w : world J) (handle : N) : option handle_s :=
  w_heap w !! handle.

Definition store (w : world J) (handle : N) (h : handle_s) : world J :=
  set_w_heap (<[handle := h]> (w_heap w)) w.

(** A call of jbd2_journal_extend on the object [h] at [handle]: the journal
    updates its state and the object, the call is traced. *)
Definition call_journal_extend (w : world J) (handle : N) (h : handle_s)
    (credits : Z) : Z * handle_s * world J :=
  let '(err, h', j') := jbd2_journal_extend ops (w_journal w) h credits in
  (err, h', {| w_heap := <[handle := h']> (w_heap w); w_journal := j';
               w_calls := w_calls w ++ [JExtend handle credits] |}).

Definition call_journal_restart (w : world J) (handle : N) (h : handle_s)
    (credits : Z) : Z * handle_s * world J :=
  let '(err, h', j') := jbd2_journal_restart ops (w_journal w) h credits in
  (err, h', {| w_heap := <[handle := h']> (w_heap w); w_journal := j';
               w_calls := w_calls w ++ [JRestart handle credits] |}).

Definition ext4_handle_sync (w : world J) (handle : N) : option (world J) :=
  if c_true (ext4_handle_valid handle) then
    h ← deref w handle;
    Some (store w handle (set_h_sync true h))
  else Some w.

Definition ext4_handle_is_aborted (w : world J) (handle : N) : option Z :=
  if c_true (ext4_handle_valid handle) then
    h ← deref w handle;
    Some (is_handle_aborted ops (w_journal w) h)
  else Some 0.

Definition ext4_handle_has_enough_credits (w : world J) (handle : N)
    (needed : Z) : option Z :=
  if CONFIG_EXT4_FS_SNAPSHOT_JOURNAL_CREDITS K then
    if negb (c_true (ext4_handle_valid handle)) then Some 1
    else
      h ← deref w handle;
      let sb := h_sb h in
      if EXT4_SNAPSHOTS sb then Some (EXT4_SNAPSHOT_HAS_TRANS_BLOCKS h needed)
      else if h_buffer_credits h <? needed then Some 0
      else Some 1
  else
    if c_true (ext4_handle_valid handle) then
      h ← deref w handle;
      if h_buffer_credits h <? needed then Some 0 else Some 1
    else Some 1.

(** CONFIG_EXT4_FS_SNAPSHOT_JOURNAL_CREDITS: the wrapper that keeps the
    buffer/user credits ratio. The trace call is a debugging print. *)
Definition __ext4_journal_extend (w : world J) (handle : N) (nblocks : Z)
    : option (Z * world J) :=
  if negb (c_true (ext4_handle_valid handle)) then Some (0, w)
  else
    let credits := nblocks in
    h ← deref w handle;
    let sb := h_sb h in
    let credits :=
      if EXT4_SNAPSHOTS sb
      then int_sub (EXT4_SNAPSHOT_TRANS_BLOCKS_int
                      (int_add (h_user_credits h) nblocks))
                   (h_buffer_credits h)
      else credits in
    let '(err, h1, w1) :=
      if 0 <? credits then call_journal_extend w handle h credits
      else (0, h, w) in
    if EXT4_SNAPSHOTS sb && negb (c_true err) then
      let h2 :=
        set_h_base_credits
          (h_credits K (int_add (h_base_credits h1) nblocks)) h1 in
      let h3 :=
        set_h_user_credits
          (h_credits K (int_add (h_user_credits h2) nblocks)) h2 in
      Some (err, store w1 handle h3)
    else Some (err, w1).

Definition __ext4_journal_restart (w : world J) (handle : N) (nblocks : Z)
    : option (Z * world J) :=
  if negb (c_true (ext4_handle_valid handle)) then Some (0, w)
  else
    h ← deref w handle;
    let sb := h_sb h in
    let credits :=
      if EXT4_SNAPSHOTS sb then EXT4_SNAPSHOT_START_TRANS_BLOCKS_int nblocks
      else nblocks in
    let '(err, h1, w1) := call_journal_restart w handle h credits in
    if EXT4_SNAPSHOTS sb && negb (c_true err) then
      let h2 := set_h_base_credits (h_credits K nblocks) h1 in
      let h3 := set_h_user_credits (h_credits K nblocks) h2 in
      Some (err, store w1 handle h3)
    else Some (err, w1).

(** [ext4_journal_extend] and [ext4_journal_restart]: the macros above with
    CONFIG_EXT4_FS_SNAPSHOT_JOURNAL_CREDITS, the plain inline functions
    without. *)
Definition ext4_journal_extend (w : world J) (handle : N) (nblocks : Z)
    : option (Z * world J) :=
  if CONFIG_EXT4_FS_SNAPSHOT_JOURNAL_CREDITS K then
    __ext4_journal_extend w handle nblocks
  else if c_true (ext4_handle_valid handle) then
    h ← deref w handle;
    let '(err, _, w1) := call_journal_extend w handle h nblocks in
    Some (err, w1)
  else Some (0, w).

Definition ext4_journal_restart (w : world J) (handle : N) (nblocks : Z)
    : option (Z * world J) :=
  if CONFIG_EXT4_FS_SNAPSHOT_JOURNAL_CREDITS K then
    __ext4_journal_restart w handle nblocks
  else if c_true (ext4_handle_valid handle) then
    h ← deref w handle;
    let '(err, _, w1) := call_journal_restart w handle h nblocks in
    Some (err, w1)
  else Some (0, w).

(** Modelled from the spec: start. [__ext4_journal_start] and
    [ext4_journal_start_sb] are only declared in the header (they are defined
    in ext4_jbd2.c). Section 4.3: with snapshots disabled, request
    [n_user_ops] buffer credits from the journal; with snapshots enabled,
    request [snapshot_start_credits(n_user_ops)] and set
    [user_credits = base_credits = n_user_ops]; fail when the journal cannot
    open a transaction. The result is the new handle or the errno. *)
Definition ext4_journal_start_sb (w : world J) (sb : super_block)
    (nblocks : Z) : (N + Z) * world J :=
  let credits :=
    if EXT4_SNAPSHOTS sb then EXT4_SNAPSHOT_START_TRANS_BLOCKS_int nblocks
    else nblocks in
  match jbd2_journal_start ops (w_journal w) sb credits with
  | (inl (p, h), j') =>
      let h' :=
        if EXT4_SNAPSHOTS sb
        then set_h_user_credits (h_credits K nblocks)
               (set_h_base_credits (h_credits K nblocks) h)
        else h in
      (inl p, {| w_heap := <[p := h']> (w_heap w); w_journal := j';
                 w_calls := w_calls w ++ [JStart credits] |})
  | (inr e, j') =>
      (inr e, {| w_heap := w_heap w; w_journal := j';
                 w_calls := w_calls w ++ [JStart credits] |})
  end.

End Wrappers.

(** ** Data journaling mode of an inode *)

(** The inode as the mode tests read it:
    - [i_isreg]: S_ISREG(inode->i_mode)
    - [i_flag_journal_data]: ext4_test_inode_flag(inode, EXT4_INODE_JOURNAL_DATA)
    - [i_flag_extents]: ext4_test_inode_flag(inode, EXT4_INODE_EXTENTS) *)
Record inode := {
  i_sb : super_block;
  i_isreg : bool;
  i_flag_journal_data : bool;
  i_flag_extents : bool
}.

Section DataMode.

Variable K : kbuild.

(** [EXT4_JOURNAL(inode) != NULL] *)
Definition EXT4_JOURNAL (inode : inode) : bool := s_journal (i_sb inode).

(** The [#ifdef CONFIG_EXT4_FS_SNAPSHOT] test [EXT4_SNAPSHOTS(inode->i_sb)]. *)
Definition snapshots_enforce_ordered (inode : inode) : bool :=
  CONFIG_EXT4_FS_SNAPSHOT K && EXT4_SNAPSHOTS (i_sb inode).

Definition ext4_should_journal_data (inode : inode) : Z :=
  if negb (EXT4_JOURNAL inode) then 0
  else if negb (i_isreg inode) then 1
  else if snapshots_enforce_ordered inode then 0
  else if data_mode_eqb (s_data_flags (i_sb inode)) EXT4_MOUNT_JOURNAL_DATA then 1
  else if i_flag_journal_data inode then 1
  else 0.

Definition ext4_should_order_data (inode : inode) : Z :=
  if negb (EXT4_JOURNAL inode) then 0
  else if negb (i_isreg inode) then 0
  else if snapshots_enforce_ordered inode then 1
  else if i_flag_journal_data inode then 0
  else if data_mode_eqb (s_data_flags (i_sb inode)) EXT4_MOUNT_ORDERED_DATA then 1
  else 0.

Definition ext4_should_writeback_data (inode : inode) : Z :=
  if negb (EXT4_JOURNAL inode) then 1
  else if snapshots_enforce_ordered inode then 0
  else if negb (i_isreg inode) then 0
  else if i_flag_journal_data inode then 0
  else if data_mode_eqb (s_data_flags (i_sb inode)) EXT4_MOUNT_WRITEBACK_DATA then 1
  else 0.

Definition ext4_should_dioread_nolock (inode : inode) : Z :=
  if negb (s_opt_dioread_nolock (i_sb inode)) then 0
  else if negb (i_isreg inode) then 0
  else if snapshots_enforce_ordered inode then 0
  else if negb (i_flag_extents inode) then 0
  else if c_true (ext4_should_journal_data inode) then 0
  else 1.

End DataMode.

(** ** A reference journal *)

(** A small journal that keeps the contract of the collaborator, to run the
    wrappers on concrete inputs: [j_free] blocks of log space are left, an
    extend that does not fit is refused with 1 (transaction full), and once
    the log is aborted every call fails with -EROFS and marks the handle. *)
Record ref_journal := {
  j_free : Z;
  j_aborted : bool;
  j_next_handle : N;
  j_tid : Z
}.

Definition EROFS : Z := 30.
Definition ENOSPC : Z := 28.

Definition ref_start (j : ref_journal) (sb : super_block) (n : Z)
    : (N * handle_s + Z) * ref_journal :=
  if j_aborted j then (inr (- EROFS), j)
  else if (n <=? j_free j) && (4096 <=? j_next_handle j)%N then
    (inl (j_next_handle j,
          {| h_sb := sb; h_tid := j_tid j; h_buffer_credits := n;
             h_base_credits := 0; h_user_credits := 0;
             h_sync := false; h_aborted := false |}),
     {| j_free := j_free j - n; j_aborted := false;
        j_next_handle := (j_next_handle j + 64)%N; j_tid := j_tid j |})
  else (inr (- ENOSPC), j).

Definition ref_extend (j : ref_journal) (h : handle_s) (n : Z)
    : Z * handle_s * ref_journal :=
  if j_aborted j || h_aborted h then (- EROFS, h, j)
  else if n <=? j_free j then
    (0, set_h_buffer_credits (int_add (h_buffer_credits h) n) h,
     {| j_free := j_free j - n; j_aborted := j_aborted j;
        j_next_handle := j_next_handle j; j_tid := j_tid j |})
  else (1, h, j).

Definition ref_restart (j : ref_journal) (h : handle_s) (n : Z)
    : Z * handle_s * ref_journal :=
  if j_aborted j || h_aborted h then (- EROFS, set_h_aborted true h, j)
  else
    (0, set_h_tid (j_tid j + 1) (set_h_buffer_credits n h),
     {| j_free := j_free j + h_buffer_credits h - n; j_aborted := j_aborted j;
        j_next_handle := j_next_handle j; j_tid := j_tid j + 1 |}).

Definition ref_ops : journal_ops ref_journal := {|
  jbd2_journal_start := ref_start;
  jbd2_journal_extend := ref_extend;
  jbd2_journal_restart := ref_restart;
  is_handle_aborted := fun j h => c_bool (h_aborted h || j_aborted j)
|}.

(** Sample inputs: a build with every switch on, a snapshot file system and
    a plain one, and a handle as [start(5)] leaves it on the former. *)
Definition snapshot_build : kbuild :=
  {| CONFIG_QUOTA := true; CONFIG_EXT4_FS_SNAPSHOT := true;
     CONFIG_EXT4_FS_SNAPSHOT_JOURNAL_CREDITS := true; MAXQUOTAS := 2;
     h_credits := h_credits_bits14 |}.


Definition snapshot_sb : super_block :=
  {| s_extents := true; s_opt_quota := false; s_snapshots := true;
     s_data_flags := EXT4_MOUNT_JOURNAL_DATA; s_opt_dioread_nolock := false;
     s_journal := true |}.

Definition plain_sb : super_block :=
  {| s_extents := true; s_opt_quota := false; s_snapshots := false;
     s_data_flags := EXT4_MOUNT_ORDERED_DATA; s_opt_dioread_nolock := false;
     s_journal := true |}.

Definition quota_sb : super_block :=
  {| s_extents := true; s_opt_quota := true; s_snapshots := false;
     s_data_flags := EXT4_MOUNT_ORDERED_DATA; s_opt_dioread_nolock := false;
     s_journal := true |}.

(** A regular file that asks for data journaling twice over, by the mount
    option and by its own flag, on the snapshot file system. *)
Definition journal_data_inode : inode :=
  {| i_sb := snapshot_sb; i_isreg := true; i_flag_journal_data := true;
     i_flag_extents := false |}.

Definition started_handle (sb : super_block) (credits user : Z) : handle_s :=
  {| h_sb := sb; h_tid := 1; h_buffer_credits := credits;
     h_base_credits := user; h_user_credits := user;
     h_sync := false; h_aborted := false |}.

Definition ref_world (free : Z) (aborted : bool) (p : N) (h : handle_s)
    : world ref_journal :=
  {| w_heap := {[ p := h ]};
     w_journal := {| j_free := free; j_aborted := aborted;
                     j_next_handle := (p + 64)%N; j_tid := 1 |};
     w_calls := [] |}.

(** Scenario B run on the reference journal: a fresh journal with 1000 free
    blocks, start for 5 operations, then extend by 3. *)
Definition ref_empty_world : world ref_journal :=
  {| w_heap := ∅;
     w_journal := {| j_free := 1000; j_aborted := false;
                     j_next_handle := 4096; j_tid := 1 |};
     w_calls := [] |}.

Definition world_after_start : world ref_journal :=
  (ext4_journal_start_sb snapshot_build ref_ops ref_empty_world snapshot_sb 5).2.

Definition world_after_extend : world ref_journal :=
  match ext4_journal_extend snapshot_build ref_ops world_after_start 4096 3 with
  | Some (_, w') => w'
  | None => world_after_start
  end.

(** ** Vocabulary of the properties *)

Section Vocabulary.

Variable K : kbuild.
Context {J : Type}.
Variable ops : journal_ops J.

(** Snapshots are in force for the handle: the credit wrappers are built in
    and the file system of the handle has snapshots. *)
Definition snapshots_enabled (h : handle_s) : bool :=
  CONFIG_EXT4_FS_SNAPSHOT_JOURNAL_CREDITS K && EXT4_SNAPSHOTS (h_sb h).

(** The value ext4_handle_has_enough_credits computes from the handle
    object: it reads the file system and two counters, nothing else. *)
Definition enough_credits (h : handle_s) (needed : Z) : Z :=
  if snapshots_enabled h then EXT4_SNAPSHOT_HAS_TRANS_BLOCKS h needed
  else c_bool (negb (h_buffer_credits h <? needed)).

(** The update of the base and user credits after a successful extend. *)
Definition add_user_credits (nblocks : Z) (h : handle_s) : handle_s :=
  let h2 :=
    set_h_base_credits (h_credits K (int_add (h_base_credits h) nblocks)) h in
  set_h_user_credits (h_credits K (int_add (h_user_credits h2) nblocks)) h2.

(** The credits the wrapper computes with snapshots, as the C code does. *)
Definition extend_credits (h : handle_s) (nblocks : Z) : Z :=
  int_sub (EXT4_SNAPSHOT_TRANS_BLOCKS_int (int_add (h_user_credits h) nblocks))
          (h_buffer_credits h).

(** The credits restart asks the journal for. *)
Definition restart_credits (h : handle_s) (nblocks : Z) : Z :=
  if snapshots_enabled h then EXT4_SNAPSHOT_START_TRANS_BLOCKS_int nblocks
  else nblocks.

(** The credits extend asks the journal for, [None] when it makes no call. *)
Definition extend_request (h : handle_s) (nblocks : Z) : option Z :=
  let credits :=
    if snapshots_enabled h then extend_credits h nblocks else nblocks in
  if CONFIG_EXT4_FS_SNAPSHOT_JOURNAL_CREDITS K
  then (if 0 <? credits then Some credits else None)
  else Some credits.

(** h_buffer_credits >= 21 * h_user_credits + 3 *)
Definition snapshot_invariant (h : handle_s) : Prop :=
  h_buffer_credits h >= 21 * h_user_credits h + 3.

(** The int computations of an extend by [nblocks] stay in range. *)
Definition extend_in_range (h : handle_s) (nblocks : Z) : Prop :=
  int_range (h_user_credits h + nblocks) /\
  int_range (h_base_credits h + nblocks) /\
  credits_fit K (h_user_credits h + nblocks) /\
  credits_fit K (h_base_credits h + nblocks) /\
  int_range (EXT4_SNAPSHOT_TRANS_BLOCKS (h_user_credits h + nblocks)) /\
  int_range (EXT4_SNAPSHOT_TRANS_BLOCKS (h_user_credits h + nblocks)
             - h_buffer_credits h).


End Vocabulary.

(** ** Further helpers of the header *)

(** The switches of the snapshot hooks that ext4_snapshot_should_move_data
    tests. *)
Record kbuild_hooks := {
  CONFIG_EXT4_FS_SNAPSHOT_FILE : bool;
  CONFIG_EXT4_FS_SNAPSHOT_HOOKS_EXTENT : bool
}.

Section MoveData.

Variable K : kbuild.
Variable KH : kbuild_hooks.

(** Compiled under CONFIG_EXT4_FS_SNAPSHOT and
    CONFIG_EXT4_FS_SNAPSHOT_HOOKS_DATA. [excluded] is the truth of
    ext4_snapshot_excluded(inode), a test of snapshot.h. *)
Definition ext4_snapshot_should_move_data (inode : inode) (excluded : bool)
    : Z :=
  if negb (EXT4_SNAPSHOTS (i_sb inode)) then 0
  else if negb (EXT4_JOURNAL inode) then 0
  else if CONFIG_EXT4_FS_SNAPSHOT_FILE KH && excluded then 0
  else if negb (CONFIG_EXT4_FS_SNAPSHOT_HOOKS_EXTENT KH) && i_flag_extents inode
  then 0
  else if c_true (ext4_should_journal_data K inode) then 0
  else 1.

End MoveData.

(** The two transaction ids ext4_inode_info keeps for fsync. *)
Record ext4_inode_info := {
  i_sync_tid : Z;
  i_datasync_tid : Z
}.

Definition ext4_update_inode_fsync_trans {J : Type} (w : world J) (handle : N)
    (ei : ext4_inode_info) (datasync : Z) : option ext4_inode_info :=
  if c_true (ext4_handle_valid handle) then
    h ← deref w handle;
    let ei1 := {| i_sync_tid := h_tid h; i_datasync_tid := i_datasync_tid ei |} in
    if c_true datasync
    then Some {| i_sync_tid := i_sync_tid ei1; i_datasync_tid := h_tid h |}
    else Some ei1
  else Some ei.

(** Further sample inputs. *)
Definition all_hooks : kbuild_hooks :=
  {| CONFIG_EXT4_FS_SNAPSHOT_FILE := true;
     CONFIG_EXT4_FS_SNAPSHOT_HOOKS_EXTENT := false |}.

Definition plain_inode (mode : data_mode) (flag : bool) : inode :=
  {| i_sb := {| s_extents := true; s_opt_quota := false; s_snapshots := false;
                s_data_flags := mode; s_opt_dioread_nolock := true;
                s_journal := true |};
     i_isreg := true; i_flag_journal_data := flag; i_flag_extents := true |}.

(** The world an extend leaves on the reference journal. *)
Definition run_extend (w : world ref_journal) (handle : N) (nblocks : Z)
    : world ref_journal :=
  match ext4_journal_extend snapshot_build ref_ops w handle nblocks with
  | Some (_, w') => w'
  | None => w
  end.

Definition run_restart (w : world ref_journal) (handle : N) (nblocks : Z)
    : world ref_journal :=
  match ext4_journal_restart snapshot_build ref_ops w handle nblocks with
  | Some (_, w') => w'
  | None => w
  end.

(** * Properties *)

(** ** Facts of C integer arithmetic *)

Lemma sint_range z : int_range (sint z).
Proof.
  unfold int_range, sint, INT_MIN, INT_MAX.
  pose proof (Z.mod_pos_bound (z + 2147483648) 4294967296 ltac:(lia)). lia.
Qed.

Lemma sint_id z : int_range z -> sint z = z.
Proof.
  unfold int_range, sint, INT_MIN, INT_MAX. intros Hz.
  rewrite Z.mod_small by lia. lia.
Qed.

Lemma uint_range_uint z : uint_range (uint z).
Proof.
  unfold uint_range, uint, UINT_MAX.
  pose proof (Z.mod_pos_bound z 4294967296 ltac:(lia)). lia.
Qed.

Lemma uint_id z : uint_range z -> uint z = z.
Proof.
  unfold uint_range, uint, UINT_MAX. intros Hz. apply Z.mod_small. lia.
Qed.

(** [sint] only depends on the residue modulo 2^32, so an expression may be
    wrapped once at the end or after each operation. *)
Lemma sint_congr a b : a mod 4294967296 = b mod 4294967296 -> sint a = sint b.
Proof.
  intros E. unfold sint. f_equal.
  rewrite <- (Zplus_mod_idemp_l a), <- (Zplus_mod_idemp_l b), E. reflexivity.
Qed.

Lemma sint_mod z : (sint z) mod 4294967296 = z mod 4294967296.
Proof.
  unfold sint.
  rewrite Zminus_mod, Zmod_mod, <- Zminus_mod.
  f_equal. lia.
Qed.

Lemma sint_add_l a b : sint (sint a + b) = sint (a + b).
Proof.
  apply sint_congr. rewrite <- Zplus_mod_idemp_l, sint_mod, Zplus_mod_idemp_l.
  reflexivity.
Qed.

Lemma sint_add_r a b : sint (a + sint b) = sint (a + b).
Proof. rewrite Z.add_comm, sint_add_l, Z.add_comm. reflexivity. Qed.

Lemma sint_sub_l a b : sint (sint a - b) = sint (a - b).
Proof. unfold Z.sub. apply sint_add_l. Qed.

Lemma sint_mul_l a b : sint (sint a * b) = sint (a * b).
Proof.
  apply sint_congr. rewrite <- Zmult_mod_idemp_l, sint_mod, Zmult_mod_idemp_l.
  reflexivity.
Qed.

Lemma c_true_c_bool b : c_true (c_bool b) = b.
Proof. destruct b; reflexivity. Qed.


(** ** The credit formulas *)

Lemma EXT4_COW_CREDITS_eq : EXT4_COW_CREDITS = 20.
Proof. reflexivity. Qed.

Lemma EXT4_SNAPSHOT_TRANS_BLOCKS_eq n : EXT4_SNAPSHOT_TRANS_BLOCKS n = 21 * n + 3.
Proof.
  unfold EXT4_SNAPSHOT_TRANS_BLOCKS. rewrite EXT4_COW_CREDITS_eq.
  change EXT4_SNAPSHOT_CREDITS with 3. lia.
Qed.

Lemma EXT4_SNAPSHOT_START_TRANS_BLOCKS_eq n :
  EXT4_SNAPSHOT_START_TRANS_BLOCKS n = 21 * n + 6.
Proof.
  unfold EXT4_SNAPSHOT_START_TRANS_BLOCKS. rewrite EXT4_COW_CREDITS_eq.
  change EXT4_SNAPSHOT_CREDITS with 3. lia.
Qed.

(** Evaluating at type [int] wraps the integer value of the macro once. *)
Lemma EXT4_SNAPSHOT_TRANS_BLOCKS_int_sint n :
  EXT4_SNAPSHOT_TRANS_BLOCKS_int n = sint (EXT4_SNAPSHOT_TRANS_BLOCKS n).
Proof.
  unfold EXT4_SNAPSHOT_TRANS_BLOCKS_int, EXT4_SNAPSHOT_TRANS_BLOCKS, int_add, int_mul.
  apply sint_add_l.
Qed.

Lemma EXT4_SNAPSHOT_START_TRANS_BLOCKS_int_sint n :
  EXT4_SNAPSHOT_START_TRANS_BLOCKS_int n = sint (EXT4_SNAPSHOT_START_TRANS_BLOCKS n).
Proof.
  unfold EXT4_SNAPSHOT_START_TRANS_BLOCKS_int, EXT4_SNAPSHOT_START_TRANS_BLOCKS,
    int_add, int_mul.
  apply sint_add_l.
Qed.

Lemma EXT4_SNAPSHOT_TRANS_BLOCKS_int_eq n :
  int_range (21 * n + 3) -> EXT4_SNAPSHOT_TRANS_BLOCKS_int n = 21 * n + 3.
Proof.
  intros Hr. rewrite EXT4_SNAPSHOT_TRANS_BLOCKS_int_sint, EXT4_SNAPSHOT_TRANS_BLOCKS_eq.
  apply sint_id, Hr.
Qed.

Lemma EXT4_SNAPSHOT_START_TRANS_BLOCKS_int_eq n :
  int_range (21 * n + 6) -> EXT4_SNAPSHOT_START_TRANS_BLOCKS_int n = 21 * n + 6.
Proof.
  intros Hr.
  rewrite EXT4_SNAPSHOT_START_TRANS_BLOCKS_int_sint, EXT4_SNAPSHOT_START_TRANS_BLOCKS_eq.
  apply sint_id, Hr.
Qed.

(** The last count whose credits fit in an int, and the first that wraps. *)
Example EXT4_SNAPSHOT_TRANS_BLOCKS_int_boundary :
  EXT4_SNAPSHOT_TRANS_BLOCKS_int 102261125 = 2147483628 /\
  EXT4_SNAPSHOT_TRANS_BLOCKS_int 102261126 = -2147483647.
Proof. split; reflexivity. Qed.

(** C1 (amended): the snapshot credit model as the header computes it.
    From the base constants write = 1, alloc = 3, COW bitmap = 9, COW block
    = 11 and the fixed snapshot credits = 3, EXT4_COW_CREDITS is 20. The
    header evaluates EXT4_SNAPSHOT_TRANS_BLOCKS(n) and
    EXT4_SNAPSHOT_START_TRANS_BLOCKS(n) at type int: for a natural number n
    they are 21n+3 and 21n+6 as long as n <= 102261125, which is to say as
    long as 21n+6 fits in an int, and differ from them for every larger n. *)
Theorem snapshot_credit_model :
  EXT4_WRITE_CREDITS = 1 /\ EXT4_ALLOC_CREDITS = 3 /\
  EXT4_COW_BITMAP_CREDITS = 9 /\ EXT4_COW_BLOCK_CREDITS = 11 /\
  EXT4_SNAPSHOT_CREDITS = 3 /\
  EXT4_COW_CREDITS = EXT4_COW_BLOCK_CREDITS + EXT4_COW_BITMAP_CREDITS /\
  EXT4_COW_CREDITS = 20 /\
  (forall n : N, Z.of_N n <= 102261125 <-> 21 * Z.of_N n + 6 <= INT_MAX) /\
  (forall n : N, Z.of_N n <= 102261125 ->
     EXT4_SNAPSHOT_TRANS_BLOCKS_int (Z.of_N n) = 21 * Z.of_N n + 3 /\
     EXT4_SNAPSHOT_START_TRANS_BLOCKS_int (Z.of_N n) = 21 * Z.of_N n + 6) /\
  (forall n : N, 102261125 < Z.of_N n ->
     EXT4_SNAPSHOT_TRANS_BLOCKS_int (Z.of_N n) <> 21 * Z.of_N n + 3 /\
     EXT4_SNAPSHOT_START_TRANS_BLOCKS_int (Z.of_N n) <> 21 * Z.of_N n + 6).
Proof.
  do 7 (split; [reflexivity|]). split; [|split].
  - intros n. unfold INT_MAX. lia.
  - intros n Hn. split.
    + apply EXT4_SNAPSHOT_TRANS_BLOCKS_int_eq.
      unfold int_range, INT_MIN, INT_MAX. lia.
    + apply EXT4_SNAPSHOT_START_TRANS_BLOCKS_int_eq.
      unfold int_range, INT_MIN, INT_MAX. lia.
  - intros n Hn. split.
    + rewrite EXT4_SNAPSHOT_TRANS_BLOCKS_int_sint.
      pose proof (sint_range (EXT4_SNAPSHOT_TRANS_BLOCKS (Z.of_N n))) as Hr.
      unfold int_range, INT_MIN, INT_MAX in Hr. lia.
    + rewrite EXT4_SNAPSHOT_START_TRANS_BLOCKS_int_sint.
      pose proof (sint_range (EXT4_SNAPSHOT_START_TRANS_BLOCKS (Z.of_N n))) as Hr.
      unfold int_range, INT_MIN, INT_MAX in Hr. lia.
Qed.

Lemma snapshot_credit_model_at_5 :
  EXT4_SNAPSHOT_TRANS_BLOCKS_int 5 = 108 /\
  EXT4_SNAPSHOT_START_TRANS_BLOCKS_int 5 = 111.
Proof.
  apply (proj1 (proj2 (proj2 (proj2 (proj2 (proj2 (proj2 (proj2 (proj2
           snapshot_credit_model)))))))) 5%N).
  vm_compute. discriminate.
Defined.

(** C1 as stated fails at the first count whose credits do not fit in an
    int: the header's int computation wraps around. *)
Lemma snapshot_credit_model_wraps :
  EXT4_SNAPSHOT_TRANS_BLOCKS_int (Z.of_N 102261126) = -2147483647 /\
  EXT4_SNAPSHOT_TRANS_BLOCKS_int (Z.of_N 102261126)
    <> 21 * Z.of_N 102261126 + 3 /\
  EXT4_SNAPSHOT_START_TRANS_BLOCKS_int (Z.of_N 102261126) = -2147483644 /\
  EXT4_SNAPSHOT_START_TRANS_BLOCKS_int (Z.of_N 102261126)
    <> 21 * Z.of_N 102261126 + 6.
Proof. repeat split; vm_compute; discriminate. Qed.

(** ** Data transaction credits *)

Lemma EXT4_MAXQUOTAS_TRANS_BLOCKS_eq K sb :
  0 <= MAXQUOTAS K <= INT_MAX ->
  EXT4_MAXQUOTAS_TRANS_BLOCKS K sb = MAXQUOTAS K * EXT4_QUOTA_TRANS_BLOCKS K sb.
Proof.
  intros Hq. unfold EXT4_MAXQUOTAS_TRANS_BLOCKS, int_mul. apply sint_id.
  unfold int_range, INT_MIN, INT_MAX, EXT4_QUOTA_TRANS_BLOCKS in *.
  destruct (CONFIG_QUOTA K), (s_opt_quota sb); lia.
Qed.

Lemma EXT4_MAXQUOTAS_TRANS_BLOCKS_off K sb :
  EXT4_QUOTA_TRANS_BLOCKS K sb = 0 -> EXT4_MAXQUOTAS_TRANS_BLOCKS K sb = 0.
Proof.
  intros E. unfold EXT4_MAXQUOTAS_TRANS_BLOCKS, int_mul. rewrite E, Z.mul_0_r.
  reflexivity.
Qed.

(** C8: for every configuration EXT4_DATA_TRANS_BLOCKS is the single-data
    credits (27 with extents, 8 without) plus the 6 xattr credits minus 2 plus
    the quota term, MAXQUOTAS credits when quota is built in and the quota
    mount option is set and none otherwise; with quota off (not built in, or
    the option clear) it is 12 without extents and 31 with extents. *)
Theorem data_trans_blocks (K : kbuild) (sb : super_block) :
  EXT4_SINGLEDATA_TRANS_BLOCKS sb = (if s_extents sb then 27 else 8) /\
  EXT4_XATTR_TRANS_BLOCKS = 6 /\
  EXT4_QUOTA_TRANS_BLOCKS K sb =
    (if CONFIG_QUOTA K && s_opt_quota sb then 1 else 0) /\
  (0 <= MAXQUOTAS K <= INT_MAX ->
   EXT4_DATA_TRANS_BLOCKS K sb =
     (if s_extents sb then 27 else 8) + 6 - 2
     + MAXQUOTAS K * (if CONFIG_QUOTA K && s_opt_quota sb then 1 else 0)) /\
  (CONFIG_QUOTA K && s_opt_quota sb = false -> s_extents sb = false ->
   EXT4_DATA_TRANS_BLOCKS K sb = 12) /\
  (CONFIG_QUOTA K && s_opt_quota sb = false -> s_extents sb = true ->
   EXT4_DATA_TRANS_BLOCKS K sb = 31).
Proof.
  assert (Hquota : EXT4_QUOTA_TRANS_BLOCKS K sb =
                   (if CONFIG_QUOTA K && s_opt_quota sb then 1 else 0))
    by (unfold EXT4_QUOTA_TRANS_BLOCKS;
        destruct (CONFIG_QUOTA K), (s_opt_quota sb); reflexivity).
  split; [reflexivity|]. split; [reflexivity|]. split; [exact Hquota|].
  split; [|split].
  - intros Hq. rewrite <- Hquota. unfold EXT4_DATA_TRANS_BLOCKS.
    rewrite (EXT4_MAXQUOTAS_TRANS_BLOCKS_eq K sb Hq).
    change (if s_extents sb then 27 else 8)
      with (EXT4_SINGLEDATA_TRANS_BLOCKS sb).
    assert (Hs : 8 <= EXT4_SINGLEDATA_TRANS_BLOCKS sb <= 27)
      by (unfold EXT4_SINGLEDATA_TRANS_BLOCKS; destruct (s_extents sb); lia).
    assert (Hm : 0 <= MAXQUOTAS K * EXT4_QUOTA_TRANS_BLOCKS K sb <= INT_MAX)
      by (unfold EXT4_QUOTA_TRANS_BLOCKS;
          destruct (CONFIG_QUOTA K), (s_opt_quota sb); lia).
    revert Hs Hm. unfold INT_MAX, EXT4_XATTR_TRANS_BLOCKS.
    generalize (EXT4_SINGLEDATA_TRANS_BLOCKS sb).
    generalize (MAXQUOTAS K * EXT4_QUOTA_TRANS_BLOCKS K sb).
    intros q s Hs Hm. unfold uint_add, uint_sub, uint.
    rewrite (Z.mod_small (s + 6)) by lia.
    rewrite (Z.mod_small (s + 6 - 2)) by lia.
    rewrite (Z.mod_small q) by lia.
    apply Z.mod_small. lia.
  - intros Hoff Hext. rewrite Hoff in Hquota. unfold EXT4_DATA_TRANS_BLOCKS.
    rewrite (EXT4_MAXQUOTAS_TRANS_BLOCKS_off K sb Hquota).
    unfold EXT4_SINGLEDATA_TRANS_BLOCKS. rewrite Hext. reflexivity.
  - intros Hoff Hext. rewrite Hoff in Hquota. unfold EXT4_DATA_TRANS_BLOCKS.
    rewrite (EXT4_MAXQUOTAS_TRANS_BLOCKS_off K sb Hquota).
    unfold EXT4_SINGLEDATA_TRANS_BLOCKS. rewrite Hext. reflexivity.
Qed.

Lemma data_trans_blocks_quota_on :
  EXT4_DATA_TRANS_BLOCKS snapshot_build quota_sb = 27 + 6 - 2 + 2 * 1 /\
  EXT4_DATA_TRANS_BLOCKS snapshot_build plain_sb = 31.
Proof.
  split.
  - apply (proj1 (proj2 (proj2 (proj2
             (data_trans_blocks snapshot_build quota_sb))))).
    vm_compute. split; discriminate.
  - apply (proj2 (proj2 (proj2 (proj2 (proj2
             (data_trans_blocks snapshot_build plain_sb)))))); reflexivity.
Defined.

(** ** Handle validity *)

Lemma ext4_handle_valid_cases handle :
  ((handle < 4096)%N /\ ext4_handle_valid handle = 0) \/
  ((4096 <= handle)%N /\ ext4_handle_valid handle = 1).
Proof.
  unfold ext4_handle_valid, EXT4_NOJOURNAL_MAX_REF_COUNT.
  destruct (N.ltb_spec handle 4096); [left | right]; split; auto.
Qed.

Lemma ext4_handle_valid_below handle :
  (handle < EXT4_NOJOURNAL_MAX_REF_COUNT)%N -> ext4_handle_valid handle = 0.
Proof.
  unfold EXT4_NOJOURNAL_MAX_REF_COUNT. intros Hlt.
  destruct (ext4_handle_valid_cases handle) as [[_ E] | [Hge _]]; [exact E | lia].
Qed.

Lemma ext4_handle_valid_above handle :
  (EXT4_NOJOURNAL_MAX_REF_COUNT <= handle)%N -> ext4_handle_valid handle = 1.
Proof.
  unfold EXT4_NOJOURNAL_MAX_REF_COUNT. intros Hge.
  destruct (ext4_handle_valid_cases handle) as [[Hlt _] | [_ E]]; [lia | exact E].
Qed.

(** C10: the sentinel threshold is exactly 4096: ext4_handle_valid(handle)
    is false if and only if the numeric identity of the handle is strictly
    below 4096 (and is 1 otherwise); the null handle is classified invalid. *)
Theorem handle_valid_threshold :
  EXT4_NOJOURNAL_MAX_REF_COUNT = 4096%N /\
  (forall handle : N, ext4_handle_valid handle = 0 <-> (handle < 4096)%N) /\
  (forall handle : N, ext4_handle_valid handle = 1 <-> (4096 <= handle)%N) /\
  ext4_handle_valid 4095 = 0 /\ ext4_handle_valid 4096 = 1 /\
  ext4_handle_valid 0 = 0.
Proof.
  split; [reflexivity|]. split; [|split; [|repeat split]].
  - intros handle.
    destruct (ext4_handle_valid_cases handle) as [[Hn E] | [Hn E]];
      rewrite E; split; intros; try lia; try reflexivity; discriminate.
  - intros handle.
    destruct (ext4_handle_valid_cases handle) as [[Hn E] | [Hn E]];
      rewrite E; split; intros; try lia; try reflexivity; discriminate.
Qed.

(** ** Data journaling mode *)

(** C9: on a file system with snapshots (and snapshot support built in) the
    data mode of a regular file with a journal is forced to ordered, whatever
    the mount options and the inode flags ask for: ext4_should_journal_data is
    0, ext4_should_order_data is 1 and ext4_should_writeback_data is 0. *)
Theorem snapshots_force_ordered_data (K : kbuild) (inode : inode) :
  CONFIG_EXT4_FS_SNAPSHOT K = true ->
  EXT4_SNAPSHOTS (i_sb inode) = true ->
  EXT4_JOURNAL inode = true ->
  i_isreg inode = true ->
  ext4_should_journal_data K inode = 0 /\
  ext4_should_order_data K inode = 1 /\
  ext4_should_writeback_data K inode = 0.
Proof.
  intros HK Hsnap Hj Hreg.
  unfold ext4_should_journal_data, ext4_should_order_data,
    ext4_should_writeback_data, snapshots_enforce_ordered.
  rewrite HK, Hsnap, Hj, Hreg. repeat split.
Qed.

Lemma snapshots_force_ordered_data_journal_mount :
  ext4_should_journal_data snapshot_build journal_data_inode = 0 /\
  ext4_should_order_data snapshot_build journal_data_inode = 1 /\
  ext4_should_writeback_data snapshot_build journal_data_inode = 0.
Proof.
  apply (snapshots_force_ordered_data snapshot_build journal_data_inode);
    reflexivity.
Defined.

(** Without snapshots the same inode follows the mount option and its flag. *)
Lemma plain_journal_data_inode :
  ext4_should_journal_data snapshot_build
    {| i_sb := plain_sb; i_isreg := true; i_flag_journal_data := true;
       i_flag_extents := false |} = 1.
Proof. reflexivity. Qed.

(** ** Operations on an invalid handle *)

Section InvalidHandle.

Variable K : kbuild.
Context {J : Type}.
Variable ops : journal_ops J.

Lemma c_true_valid_below handle :
  (handle < EXT4_NOJOURNAL_MAX_REF_COUNT)%N ->
  c_true (ext4_handle_valid handle) = false.
Proof. intros Hlt. rewrite (ext4_handle_valid_below _ Hlt). reflexivity. Qed.

Lemma c_true_valid_above handle :
  ext4_handle_valid handle = 1 -> c_true (ext4_handle_valid handle) = true.
Proof. intros ->. reflexivity. Qed.

(** C7: on a handle whose numeric identity is below the sentinel threshold
    every credit operation is a no-op that reports success:
    ext4_handle_has_enough_credits returns 1 for every needed value, extend
    and restart return 0 and leave the world (heap, journal and the trace of
    journal calls) as it was, ext4_handle_sync changes nothing and
    ext4_handle_is_aborted returns 0. *)
Theorem invalid_handle_operations (w : world J) (handle : N) :
  (handle < EXT4_NOJOURNAL_MAX_REF_COUNT)%N ->
  (forall needed, ext4_handle_has_enough_credits K w handle needed = Some 1) /\
  (forall nblocks, ext4_journal_extend K ops w handle nblocks = Some (0, w)) /\
  (forall nblocks, ext4_journal_restart K ops w handle nblocks = Some (0, w)) /\
  (forall nblocks, __ext4_journal_extend K ops w handle nblocks = Some (0, w)) /\
  (forall nblocks, __ext4_journal_restart K ops w handle nblocks = Some (0, w)) /\
  ext4_handle_sync w handle = Some w /\
  ext4_handle_is_aborted ops w handle = Some 0.
Proof.
  intros Hlt. pose proof (c_true_valid_below handle Hlt) as Hv.
  unfold ext4_handle_has_enough_credits, ext4_journal_extend,
    ext4_journal_restart, __ext4_journal_extend, __ext4_journal_restart,
    ext4_handle_sync, ext4_handle_is_aborted.
  rewrite Hv. cbn.
  repeat split; intros; destruct (CONFIG_EXT4_FS_SNAPSHOT_JOURNAL_CREDITS K);
    reflexivity.
Qed.

End InvalidHandle.

Lemma invalid_handle_operations_null :
  (forall needed,
     ext4_handle_has_enough_credits snapshot_build
       (ref_world 0 true 4096 (started_handle snapshot_sb 0 0)) 0 needed = Some 1) /\
  (forall nblocks,
     ext4_journal_extend snapshot_build ref_ops
       (ref_world 0 true 4096 (started_handle snapshot_sb 0 0)) 0 nblocks
     = Some (0, ref_world 0 true 4096 (started_handle snapshot_sb 0 0))) /\
  (forall nblocks,
     ext4_journal_restart snapshot_build ref_ops
       (ref_world 0 true 4096 (started_handle snapshot_sb 0 0)) 0 nblocks
     = Some (0, ref_world 0 true 4096 (started_handle snapshot_sb 0 0))) /\
  (forall nblocks,
     __ext4_journal_extend snapshot_build ref_ops
       (ref_world 0 true 4096 (started_handle snapshot_sb 0 0)) 0 nblocks
     = Some (0, ref_world 0 true 4096 (started_handle snapshot_sb 0 0))) /\
  (forall nblocks,
     __ext4_journal_restart snapshot_build ref_ops
       (ref_world 0 true 4096 (started_handle snapshot_sb 0 0)) 0 nblocks
     = Some (0, ref_world 0 true 4096 (started_handle snapshot_sb 0 0))) /\
  ext4_handle_sync (ref_world 0 true 4096 (started_handle snapshot_sb 0 0)) 0
  = Some (ref_world 0 true 4096 (started_handle snapshot_sb 0 0)) /\
  ext4_handle_is_aborted ref_ops
    (ref_world 0 true 4096 (started_handle snapshot_sb 0 0)) 0 = Some 0.
Proof.
  apply (invalid_handle_operations snapshot_build ref_ops
           (ref_world 0 true 4096 (started_handle snapshot_sb 0 0)) 0%N).
  reflexivity.
Defined.

(** ** Credit checks on a valid handle *)

Section ValidHandle.

Variable K : kbuild.
Context {J : Type}.
Variable ops : journal_ops J.

Lemma has_enough_credits_valid (w : world J) handle h needed :
  ext4_handle_valid handle = 1 ->
  deref w handle = Some h ->
  ext4_handle_has_enough_credits K w handle needed = Some (enough_credits K h needed).
Proof.
  intros Hv Hd. unfold ext4_handle_has_enough_credits, enough_credits,
    snapshots_enabled.
  rewrite (c_true_valid_above _ Hv), Hd. cbn.
  destruct (CONFIG_EXT4_FS_SNAPSHOT_JOURNAL_CREDITS K); cbn;
    [destruct (EXT4_SNAPSHOTS (h_sb h)); [reflexivity|]|];
    destruct (h_buffer_credits h <? needed); reflexivity.
Qed.

Lemma enough_credits_snapshots h needed :
  snapshots_enabled K h = true ->
  int_range (21 * needed + 3) ->
  (enough_credits K h needed = 1 <->
     h_buffer_credits h >= 21 * needed + 3 /\ h_user_credits h >= needed) /\
  (enough_credits K h needed = 0 <->
     ~ (h_buffer_credits h >= 21 * needed + 3 /\ h_user_credits h >= needed)).
Proof.
  intros Hs Hr. unfold enough_credits, EXT4_SNAPSHOT_HAS_TRANS_BLOCKS.
  rewrite Hs, (EXT4_SNAPSHOT_TRANS_BLOCKS_int_eq _ Hr).
  destruct (Z.leb_spec (21 * needed + 3) (h_buffer_credits h));
    destruct (Z.leb_spec needed (h_user_credits h)); cbn;
    split; split; intros; try lia; try discriminate; try reflexivity.
Qed.

Lemma enough_credits_plain h needed :
  snapshots_enabled K h = false ->
  (enough_credits K h needed = 1 <-> h_buffer_credits h >= needed) /\
  (enough_credits K h needed = 0 <-> ~ h_buffer_credits h >= needed).
Proof.
  intros Hs. unfold enough_credits. rewrite Hs.
  destruct (Z.ltb_spec (h_buffer_credits h) needed); cbn;
    split; split; intros; try lia; try discriminate; try reflexivity.
Qed.

Lemma enough_credits_snapshots_int h needed :
  snapshots_enabled K h = true ->
  (enough_credits K h needed = 1 <->
     h_buffer_credits h >= EXT4_SNAPSHOT_TRANS_BLOCKS_int needed /\
     h_user_credits h >= needed).
Proof.
  intros Hs. unfold enough_credits, EXT4_SNAPSHOT_HAS_TRANS_BLOCKS. rewrite Hs.
  destruct (Z.leb_spec (EXT4_SNAPSHOT_TRANS_BLOCKS_int needed) (h_buffer_credits h));
    destruct (Z.leb_spec needed (h_user_credits h)); cbn;
    split; intros; try lia; try discriminate; try reflexivity.
Qed.

(** A count the handle has user credits for cannot overflow the formula. *)
Lemma enough_credits_snapshots_count h needed :
  snapshots_enabled K h = true ->
  0 <= needed ->
  21 * h_user_credits h + 3 <= INT_MAX ->
  (enough_credits K h needed = 1 <->
     h_buffer_credits h >= 21 * needed + 3 /\ h_user_credits h >= needed).
Proof.
  intros Hs Hn Hu.
  destruct (Z.le_gt_cases needed (h_user_credits h)) as [Hle | Hgt].
  - apply enough_credits_snapshots; [exact Hs|].
    unfold int_range, INT_MIN, INT_MAX in *. lia.
  - unfold enough_credits, EXT4_SNAPSHOT_HAS_TRANS_BLOCKS. rewrite Hs.
    destruct (Z.leb_spec needed (h_user_credits h)); [lia|].
    rewrite andb_false_r. cbn. split; [discriminate | lia].
Qed.

(** C2: for a valid handle and a needed count n,
    ext4_handle_has_enough_credits returns 0 or 1. With snapshots enabled it
    returns 1 if and only if h_buffer_credits >= EXT4_SNAPSHOT_TRANS_BLOCKS(n)
    and h_user_credits >= n, where the macro, evaluated at type int, is 21n+3
    whenever that is representable, and the equivalence with 21n+3 holds for
    every n >= 0 on a handle whose own count keeps 21 * h_user_credits + 3
    within int. With snapshots disabled it returns 1 if and only if
    h_buffer_credits >= n, whatever the user credits are. *)
Theorem has_enough_credits_spec (w : world J) (handle : N) (h : handle_s)
    (needed : Z) :
  ext4_handle_valid handle = 1 ->
  deref w handle = Some h ->
  (ext4_handle_has_enough_credits K w handle needed = Some 1 \/
   ext4_handle_has_enough_credits K w handle needed = Some 0) /\
  (snapshots_enabled K h = true ->
   (ext4_handle_has_enough_credits K w handle needed = Some 1 <->
      h_buffer_credits h >= EXT4_SNAPSHOT_TRANS_BLOCKS_int needed /\
      h_user_credits h >= needed) /\
   (int_range (EXT4_SNAPSHOT_TRANS_BLOCKS needed) \/
    (0 <= needed /\ 21 * h_user_credits h + 3 <= INT_MAX) ->
    EXT4_SNAPSHOT_TRANS_BLOCKS needed = 21 * needed + 3 /\
    (ext4_handle_has_enough_credits K w handle needed = Some 1 <->
       h_buffer_credits h >= EXT4_SNAPSHOT_TRANS_BLOCKS needed /\
       h_user_credits h >= needed))) /\
  (snapshots_enabled K h = false ->
   (ext4_handle_has_enough_credits K w handle needed = Some 1 <->
      h_buffer_credits h >= needed) /\
   (forall user,
      ext4_handle_has_enough_credits K (store w handle (set_h_user_credits user h))
        handle needed
      = ext4_handle_has_enough_credits K w handle needed)).
Proof.
  intros Hv Hd. rewrite (has_enough_credits_valid w handle h needed Hv Hd).
  assert (Hinj : forall z : Z, Some (enough_credits K h needed) = Some z <->
                               enough_credits K h needed = z)
    by (intros z; split; [intros [= E]; exact E | intros ->; reflexivity]).
  split; [|split].
  - unfold enough_credits, EXT4_SNAPSHOT_HAS_TRANS_BLOCKS, c_bool.
    destruct (snapshots_enabled K h);
      repeat match goal with |- context [if ?b then _ else _] => destruct b end;
      auto.
  - intros Hs. split.
    + rewrite Hinj. apply enough_credits_snapshots_int, Hs.
    + intros Hrep. split; [apply EXT4_SNAPSHOT_TRANS_BLOCKS_eq|].
      rewrite Hinj, EXT4_SNAPSHOT_TRANS_BLOCKS_eq in *.
      destruct Hrep as [Hr | [Hn Hu]].
      * apply (enough_credits_snapshots h needed Hs Hr).
      * apply (enough_credits_snapshots_count h needed Hs Hn Hu).
  - intros Hs. split.
    + rewrite Hinj. apply (enough_credits_plain h needed Hs).
    + intros user.
      rewrite (has_enough_credits_valid (store w handle (set_h_user_credits user h))
                 handle (set_h_user_credits user h) needed Hv).
      * unfold enough_credits, snapshots_enabled in *. cbn. rewrite Hs.
        reflexivity.
      * unfold deref, store. cbn. apply lookup_insert_eq.
Qed.

End ValidHandle.

Lemma has_enough_credits_spec_after_start :
  EXT4_SNAPSHOT_TRANS_BLOCKS 5 = 21 * 5 + 3 /\
  (ext4_handle_has_enough_credits snapshot_build
     (ref_world 1000 false 4096 (started_handle snapshot_sb 111 5)) 4096 5
   = Some 1 <->
   111 >= EXT4_SNAPSHOT_TRANS_BLOCKS 5 /\ 5 >= 5).
Proof.
  apply (proj2 (proj1 (proj2 (has_enough_credits_spec snapshot_build
           (ref_world 1000 false 4096 (started_handle snapshot_sb 111 5))
           4096%N (started_handle snapshot_sb 111 5) 5 eq_refl eq_refl))
           eq_refl)).
  right. vm_compute. split; discriminate.
Defined.

(** The check on the sample handle: 111 buffer credits cover 5 operations
    (108) but not 6 (129), and a plain handle is checked against the buffer
    credits alone. *)
Example has_enough_credits_samples :
  ext4_handle_has_enough_credits snapshot_build
    (ref_world 1000 false 4096 (started_handle snapshot_sb 111 5)) 4096 5
  = Some 1 /\
  ext4_handle_has_enough_credits snapshot_build
    (ref_world 1000 false 4096 (started_handle snapshot_sb 111 6)) 4096 6
  = Some 0 /\
  ext4_handle_has_enough_credits snapshot_build
    (ref_world 1000 false 4096 (started_handle snapshot_sb 111 5)) 4096 6
  = Some 0 /\
  ext4_handle_has_enough_credits snapshot_build
    (ref_world 1000 false 4096 (started_handle plain_sb 31 0)) 4096 31
  = Some 1 /\
  ext4_handle_has_enough_credits snapshot_build
    (ref_world 1000 false 4096 (started_handle plain_sb 31 0)) 4096 32
  = Some 0.
Proof. repeat split. Qed.

(** ** Extending a transaction *)

Section Extend.

Variable K : kbuild.
Context {J : Type}.
Variable ops : journal_ops J.

Lemma extend_credits_eq h nblocks :
  int_range (h_user_credits h + nblocks) ->
  int_range (EXT4_SNAPSHOT_TRANS_BLOCKS (h_user_credits h + nblocks)) ->
  int_range (EXT4_SNAPSHOT_TRANS_BLOCKS (h_user_credits h + nblocks)
             - h_buffer_credits h) ->
  extend_credits h nblocks =
    EXT4_SNAPSHOT_TRANS_BLOCKS (h_user_credits h + nblocks) - h_buffer_credits h.
Proof.
  intros Hu Ht Hd. unfold extend_credits, int_sub, int_add.
  rewrite (sint_id _ Hu), EXT4_SNAPSHOT_TRANS_BLOCKS_int_sint, (sint_id _ Ht).
  apply sint_id, Hd.
Qed.

Lemma __ext4_journal_extend_snapshots (w : world J) handle h nblocks :
  ext4_handle_valid handle = 1 ->
  deref w handle = Some h ->
  EXT4_SNAPSHOTS (h_sb h) = true ->
  __ext4_journal_extend K ops w handle nblocks =
    if 0 <? extend_credits h nblocks then
      let '(err, h1, w1) :=
        call_journal_extend ops w handle h (extend_credits h nblocks) in
      if c_true err then Some (err, w1)
      else Some (err, store w1 handle (add_user_credits K nblocks h1))
    else Some (0, store w handle (add_user_credits K nblocks h)).
Proof.
  intros Hv Hd Hs. unfold __ext4_journal_extend.
  rewrite (c_true_valid_above _ Hv), Hd. cbn. rewrite Hs.
  fold (extend_credits h nblocks).
  destruct (0 <? extend_credits h nblocks); [|reflexivity].
  destruct (call_journal_extend ops w handle h (extend_credits h nblocks))
    as [[err h1] w1].
  cbn. destruct (c_true err); reflexivity.
Qed.



Lemma extend_snapshots_call (w : world J) handle h nblocks :
  CONFIG_EXT4_FS_SNAPSHOT_JOURNAL_CREDITS K = true ->
  ext4_handle_valid handle = 1 ->
  deref w handle = Some h ->
  EXT4_SNAPSHOTS (h_sb h) = true ->
  journal_contract ops ->
  int_range (h_user_credits h + nblocks) ->
  int_range (h_base_credits h + nblocks) ->
  credits_fit K (h_user_credits h + nblocks) ->
  credits_fit K (h_base_credits h + nblocks) ->
  int_range (EXT4_SNAPSHOT_TRANS_BLOCKS (h_user_credits h + nblocks)) ->
  int_range (EXT4_SNAPSHOT_TRANS_BLOCKS (h_user_credits h + nblocks)
             - h_buffer_credits h) ->
  0 < EXT4_SNAPSHOT_TRANS_BLOCKS (h_user_credits h + nblocks) - h_buffer_credits h ->
  exists err w',
    ext4_journal_extend K ops w handle nblocks = Some (err, w') /\
    err = (jbd2_journal_extend ops (w_journal w) h
             (EXT4_SNAPSHOT_TRANS_BLOCKS (h_user_credits h + nblocks)
              - h_buffer_credits h)).1.1 /\
    w_calls w' =
      w_calls w ++ [JExtend handle
                      (EXT4_SNAPSHOT_TRANS_BLOCKS (h_user_credits h + nblocks)
                       - h_buffer_credits h)] /\
    (err = 0 ->
     exists h',
       deref w' handle = Some h' /\
       h_user_credits h' = h_user_credits h + nblocks /\
       h_base_credits h' = h_base_credits h + nblocks /\
       h_buffer_credits h' =
         EXT4_SNAPSHOT_TRANS_BLOCKS (h_user_credits h + nblocks)) /\
    (err <> 0 -> deref w' handle = Some h).
Proof.
  intros HK Hv Hd Hs HJ Hu Hb Hfu Hfb Ht Hr Hlt.
  unfold ext4_journal_extend. rewrite HK.
  rewrite (__ext4_journal_extend_snapshots w handle h nblocks Hv Hd Hs).
  rewrite (extend_credits_eq h nblocks Hu Ht Hr).
  set (delta := EXT4_SNAPSHOT_TRANS_BLOCKS (h_user_credits h + nblocks)
                - h_buffer_credits h) in *.
  destruct (Z.ltb_spec 0 delta); [|lia].
  unfold call_journal_extend.
  destruct (jbd2_journal_extend ops (w_journal w) h delta) as [[err h1] j1] eqn:E.
  cbn. unfold c_true. destruct (Z.eqb_spec err 0) as [-> | Hne]; cbn.
  - eexists 0, _. split; [reflexivity|]. split; [reflexivity|].
    split; [reflexivity|]. split; [|congruence].
    intros _. pose proof (extend_granted ops HJ _ _ _ _ _ E) as ->.
    eexists. split; [unfold deref, store; cbn; apply lookup_insert_eq|].
    unfold add_user_credits, int_add. cbn.
    rewrite (sint_id _ Hu), (sint_id _ Hb), Hfu, Hfb.
    repeat split. rewrite sint_id; unfold delta in *; [lia|].
    replace (h_buffer_credits h +
             (EXT4_SNAPSHOT_TRANS_BLOCKS (h_user_credits h + nblocks)
              - h_buffer_credits h))
      with (EXT4_SNAPSHOT_TRANS_BLOCKS (h_user_credits h + nblocks)) by lia.
    exact Ht.
  - eexists err, _. split; [reflexivity|]. split; [reflexivity|].
    split; [reflexivity|]. split; [congruence|].
    intros _. pose proof (extend_refused ops HJ _ _ _ _ _ _ E Hne) as ->.
    unfold deref. cbn. apply lookup_insert_eq.
Qed.

End Extend.

(** The reference journal keeps the contract. *)
Lemma ref_ops_contract : journal_contract ref_ops.
Proof.
  split; cbn.
  - intros j h n h' j'. unfold ref_extend.
    destruct (j_aborted j || h_aborted h); [discriminate|].
    destruct (n <=? j_free j); [|discriminate].
    intros [= <- _]. reflexivity.
  - intros j h n err h' j'. unfold ref_extend.
    destruct (j_aborted j || h_aborted h); [intros [= _ <- _]; reflexivity|].
    destruct (n <=? j_free j); intros [= <- <- _] Hne;
      [contradiction | reflexivity].
  - intros j h n h' j'. unfold ref_restart.
    destruct (j_aborted j || h_aborted h); [discriminate|].
    intros [= <- _]. split; reflexivity.
  - intros j sb n p h j'. unfold ref_start.
    destruct (j_aborted j); [discriminate|].
    destruct (n <=? j_free j); cbn; [|discriminate].
    destruct (N.leb_spec 4096 (j_next_handle j)); [|discriminate].
    intros [= <- <- _]. cbn. repeat split.
    apply ext4_handle_valid_above. assumption.
Qed.

Section ExtendClaim.

Variable K : kbuild.
Context {J : Type}.
Variable ops : journal_ops J.


End ExtendClaim.



Example scenario_B_runs :
  option_map fst
    (ext4_journal_extend snapshot_build ref_ops
       (ref_world 1000 false 4096 (started_handle snapshot_sb 111 5)) 4096 3)
  = Some 0.
Proof. vm_compute. reflexivity. Qed.

(** ** Restarting a transaction *)

Section Restart.

Variable K : kbuild.
Context {J : Type}.
Variable ops : journal_ops J.

Lemma ext4_journal_restart_valid (w : world J) handle h nblocks :
  ext4_handle_valid handle = 1 ->
  deref w handle = Some h ->
  ext4_journal_restart K ops w handle nblocks =
    let '(err, h1, w1) :=
      call_journal_restart ops w handle h (restart_credits K h nblocks) in
    if snapshots_enabled K h && negb (c_true err)
    then Some (err, store w1 handle
                      (set_h_user_credits (h_credits K nblocks)
                         (set_h_base_credits (h_credits K nblocks) h1)))
    else Some (err, w1).
Proof.
  intros Hv Hd.
  unfold ext4_journal_restart, __ext4_journal_restart, restart_credits,
    snapshots_enabled.
  rewrite (c_true_valid_above _ Hv), Hd. cbn.
  destruct (CONFIG_EXT4_FS_SNAPSHOT_JOURNAL_CREDITS K); cbn.
  - destruct (call_journal_restart ops w handle h _) as [[err h1] w1].
    reflexivity.
  - destruct (call_journal_restart ops w handle h nblocks) as [[err h1] w1].
    reflexivity.
Qed.

(** Restart always calls the journal, once, and returns what it returned. *)
Lemma ext4_journal_restart_calls (w : world J) handle h nblocks :
  ext4_handle_valid handle = 1 ->
  deref w handle = Some h ->
  exists w',
    ext4_journal_restart K ops w handle nblocks =
      Some ((jbd2_journal_restart ops (w_journal w) h
               (restart_credits K h nblocks)).1.1, w') /\
    w_calls w' = w_calls w ++ [JRestart handle (restart_credits K h nblocks)] /\
    w_journal w' =
      (jbd2_journal_restart ops (w_journal w) h (restart_credits K h nblocks)).2.
Proof.
  intros Hv Hd. rewrite (ext4_journal_restart_valid w handle h nblocks Hv Hd).
  unfold call_journal_restart.
  destruct (jbd2_journal_restart ops (w_journal w) h (restart_credits K h nblocks))
    as [[err h1] j1].
  cbn. destruct (snapshots_enabled K h && negb (c_true err));
    eexists; repeat split.
Qed.

(** With snapshots: the request is 21n+6 and a success resets both counts. *)
Lemma restart_snapshots (w : world J) handle h nblocks err w' :
  ext4_handle_valid handle = 1 ->
  deref w handle = Some h ->
  snapshots_enabled K h = true ->
  int_range (21 * nblocks + 6) ->
  credits_fit K nblocks ->
  ext4_journal_restart K ops w handle nblocks = Some (err, w') ->
  w_calls w' = w_calls w ++ [JRestart handle (21 * nblocks + 6)] /\
  err = (jbd2_journal_restart ops (w_journal w) h (21 * nblocks + 6)).1.1 /\
  (err = 0 ->
   exists h',
     deref w' handle = Some h' /\
     h_user_credits h' = nblocks /\ h_base_credits h' = nblocks /\
     (journal_contract ops -> h_buffer_credits h' = 21 * nblocks + 6)).
Proof.
  intros Hv Hd Hs Hr Hf.
  rewrite (ext4_journal_restart_valid w handle h nblocks Hv Hd).
  unfold restart_credits, call_journal_restart. rewrite Hs, Hf.
  rewrite (EXT4_SNAPSHOT_START_TRANS_BLOCKS_int_eq _ Hr).
  destruct (jbd2_journal_restart ops (w_journal w) h (21 * nblocks + 6))
    as [[e h1] j1] eqn:E.
  cbn. unfold c_true. destruct (Z.eqb_spec e 0) as [-> | Hne]; cbn.
  - intros [= <- <-]. cbn. repeat split.
    intros _. eexists. split; [unfold deref; cbn; apply lookup_insert_eq|].
    cbn. repeat split.
    intros HJ. apply (restart_granted ops HJ _ _ _ _ _ E).
  - intros [= <- <-]. cbn. repeat split. intros ->. contradiction.
Qed.

(** Without snapshots: the request is n and the handle stays as the journal
    left it. *)
Lemma restart_plain (w : world J) handle h nblocks err w' :
  ext4_handle_valid handle = 1 ->
  deref w handle = Some h ->
  snapshots_enabled K h = false ->
  ext4_journal_restart K ops w handle nblocks = Some (err, w') ->
  w_calls w' = w_calls w ++ [JRestart handle nblocks] /\
  err = (jbd2_journal_restart ops (w_journal w) h nblocks).1.1 /\
  deref w' handle = Some (jbd2_journal_restart ops (w_journal w) h nblocks).1.2.
Proof.
  intros Hv Hd Hs.
  rewrite (ext4_journal_restart_valid w handle h nblocks Hv Hd).
  unfold restart_credits, call_journal_restart. rewrite Hs.
  destruct (jbd2_journal_restart ops (w_journal w) h nblocks) as [[e h1] j1].
  cbn. intros [= <- <-]. cbn. repeat split.
  unfold deref. cbn. apply lookup_insert_eq.
Qed.

(** The request of the modelled start, read off the trace. *)
Lemma ext4_journal_start_sb_request (w : world J) sb nblocks :
  w_calls (ext4_journal_start_sb K ops w sb nblocks).2 =
    w_calls w ++ [JStart (if EXT4_SNAPSHOTS sb
                          then EXT4_SNAPSHOT_START_TRANS_BLOCKS_int nblocks
                          else nblocks)].
Proof.
  unfold ext4_journal_start_sb.
  destruct (jbd2_journal_start ops (w_journal w) sb _) as [[[p h] | e] j'];
    reflexivity.
Qed.

End Restart.

Section RestartClaim.

Variable K : kbuild.
Context {J : Type}.
Variable ops : journal_ops J.

(** C4 (amended): restart on a valid handle always calls
    jbd2_journal_restart and returns its result. With snapshots enabled (and
    21n+6 representable as int, n in the type of the counters) it asks for
    EXT4_SNAPSHOT_START_TRANS_BLOCKS(n) = 21n+6 credits, at least what the
    modelled start asks for the same count on the same file system, and when
    the journal returns 0 it sets h_user_credits = h_base_credits = n
    whatever they were before. With snapshots disabled it asks for exactly n
    and leaves the handle, the two counts included, as the journal left
    it. *)
Theorem restart_requests_and_resets (w : world J) (handle : N) (h : handle_s)
    (nblocks : Z) :
  ext4_handle_valid handle = 1 ->
  deref w handle = Some h ->
  (snapshots_enabled K h = true ->
   int_range (21 * nblocks + 6) ->
   credits_fit K nblocks ->
   exists err w',
     ext4_journal_restart K ops w handle nblocks = Some (err, w') /\
     EXT4_SNAPSHOT_START_TRANS_BLOCKS nblocks = 21 * nblocks + 6 /\
     w_calls w' =
       w_calls w ++ [JRestart handle (EXT4_SNAPSHOT_START_TRANS_BLOCKS nblocks)] /\
     err = (jbd2_journal_restart ops (w_journal w) h
              (EXT4_SNAPSHOT_START_TRANS_BLOCKS nblocks)).1.1 /\
     (forall w0 : world J,
        exists c,
          w_calls (ext4_journal_start_sb K ops w0 (h_sb h) nblocks).2 =
            w_calls w0 ++ [JStart c] /\
          c <= EXT4_SNAPSHOT_START_TRANS_BLOCKS nblocks) /\
     (err = 0 ->
      exists h',
        deref w' handle = Some h' /\
        h_user_credits h' = nblocks /\ h_base_credits h' = nblocks)) /\
  (snapshots_enabled K h = false ->
   exists err w',
     ext4_journal_restart K ops w handle nblocks = Some (err, w') /\
     w_calls w' = w_calls w ++ [JRestart handle nblocks] /\
     err = (jbd2_journal_restart ops (w_journal w) h nblocks).1.1 /\
     deref w' handle =
       Some (jbd2_journal_restart ops (w_journal w) h nblocks).1.2).
Proof.
  intros Hv Hd. split.
  - intros Hs Hr Hf.
    destruct (ext4_journal_restart_calls K ops w handle h nblocks Hv Hd)
      as (w' & E & _).
    destruct (restart_snapshots K ops w handle h nblocks _ w' Hv Hd Hs Hr Hf E)
      as (Hc & He & Hok).
    rewrite EXT4_SNAPSHOT_START_TRANS_BLOCKS_eq.
    eexists _, w'. split; [exact E|]. split; [reflexivity|].
    split; [exact Hc|]. split; [exact He|]. split.
    + intros w0. eexists. split; [apply ext4_journal_start_sb_request|].
      unfold snapshots_enabled in Hs. apply andb_true_iff in Hs as [_ ->].
      rewrite (EXT4_SNAPSHOT_START_TRANS_BLOCKS_int_eq _ Hr). lia.
    + intros E0. destruct (Hok E0) as (h' & ? & ? & ? & _).
      exists h'. auto.
  - intros Hs.
    destruct (ext4_journal_restart_calls K ops w handle h nblocks Hv Hd)
      as (w' & E & _).
    destruct (restart_plain K ops w handle h nblocks _ w' Hv Hd Hs E)
      as (Hc & He & Hh).
    eexists _, w'. split; [exact E|]. auto.
Qed.

End RestartClaim.

(** C4 as stated fails without snapshots: on the plain file system a
    restart for 2 operations succeeds and h_user_credits and h_base_credits
    keep their old value 7. *)
Lemma restart_plain_keeps_user_credits :
  exists w' h',
    ext4_journal_restart snapshot_build ref_ops
      (ref_world 1000 false 4096 (started_handle plain_sb 10 7)) 4096 2
    = Some (0, w') /\
    deref w' 4096 = Some h' /\
    h_user_credits h' = 7 /\ h_base_credits h' = 7 /\
    h_user_credits h' <> 2.
Proof.
  eexists _, _. split; [vm_compute; reflexivity|].
  split; [vm_compute; reflexivity|]. cbn. repeat split. discriminate.
Qed.

(** On the snapshot file system the restart is granted and resets 5 to 2. *)
Lemma restart_requests_and_resets_snapshot :
  exists err w',
    ext4_journal_restart snapshot_build ref_ops
      (ref_world 1000 false 4096 (started_handle snapshot_sb 111 5)) 4096 2
    = Some (err, w') /\
    EXT4_SNAPSHOT_START_TRANS_BLOCKS 2 = 21 * 2 + 6 /\
    w_calls w' = [] ++ [JRestart 4096 (EXT4_SNAPSHOT_START_TRANS_BLOCKS 2)] /\
    err = (jbd2_journal_restart ref_ops
             (w_journal (ref_world 1000 false 4096
                           (started_handle snapshot_sb 111 5)))
             (started_handle snapshot_sb 111 5)
             (EXT4_SNAPSHOT_START_TRANS_BLOCKS 2)).1.1 /\
    (forall w0 : world ref_journal,
       exists c,
         w_calls (ext4_journal_start_sb snapshot_build ref_ops w0 snapshot_sb 2).2 =
           w_calls w0 ++ [JStart c] /\
         c <= EXT4_SNAPSHOT_START_TRANS_BLOCKS 2) /\
    (err = 0 ->
     exists h',
       deref w' 4096 = Some h' /\
       h_user_credits h' = 2 /\ h_base_credits h' = 2).
Proof.
  apply (proj1 (restart_requests_and_resets snapshot_build ref_ops
           (ref_world 1000 false 4096 (started_handle snapshot_sb 111 5))
           4096%N (started_handle snapshot_sb 111 5) 2 eq_refl eq_refl)).
  - reflexivity.
  - vm_compute. split; discriminate.
  - reflexivity.
Defined.

(** ** Aborted handles *)

Section Aborted.

Variable K : kbuild.
Context {J : Type}.
Variable ops : journal_ops J.

Lemma ext4_journal_extend_valid (w : world J) handle h nblocks :
  ext4_handle_valid handle = 1 ->
  deref w handle = Some h ->
  ext4_journal_extend K ops w handle nblocks =
    match extend_request K h nblocks with
    | Some credits =>
        let '(err, h1, w1) := call_journal_extend ops w handle h credits in
        if snapshots_enabled K h && negb (c_true err)
        then Some (err, store w1 handle (add_user_credits K nblocks h1))
        else Some (err, w1)
    | None =>
        Some (0, if snapshots_enabled K h
                 then store w handle (add_user_credits K nblocks h) else w)
    end.
Proof.
  intros Hv Hd.
  unfold ext4_journal_extend, __ext4_journal_extend, extend_request,
    snapshots_enabled.
  rewrite (c_true_valid_above _ Hv), Hd. cbn.
  destruct (CONFIG_EXT4_FS_SNAPSHOT_JOURNAL_CREDITS K); cbn.
  - destruct (EXT4_SNAPSHOTS (h_sb h)); cbn.
    + fold (extend_credits h nblocks).
      destruct (0 <? extend_credits h nblocks); [|reflexivity].
      destruct (call_journal_extend ops w handle h _) as [[err h1] w1].
      reflexivity.
    + destruct (0 <? nblocks); [|reflexivity].
      destruct (call_journal_extend ops w handle h _) as [[err h1] w1].
      reflexivity.
  - destruct (call_journal_extend ops w handle h nblocks) as [[err h1] w1].
    reflexivity.
Qed.

(** Extend returns 0 without a call, or what its one call returned. *)
Lemma ext4_journal_extend_calls (w : world J) handle h nblocks :
  ext4_handle_valid handle = 1 ->
  deref w handle = Some h ->
  match extend_request K h nblocks with
  | Some credits =>
      exists w',
        ext4_journal_extend K ops w handle nblocks =
          Some ((jbd2_journal_extend ops (w_journal w) h credits).1.1, w') /\
        w_calls w' = w_calls w ++ [JExtend handle credits]
  | None =>
      exists w',
        ext4_journal_extend K ops w handle nblocks = Some (0, w') /\
        w_calls w' = w_calls w /\ w_journal w' = w_journal w
  end.
Proof.
  intros Hv Hd. rewrite (ext4_journal_extend_valid w handle h nblocks Hv Hd).
  destruct (extend_request K h nblocks) as [credits|].
  - unfold call_journal_extend.
    destruct (jbd2_journal_extend ops (w_journal w) h credits) as [[err h1] j1].
    cbn. destruct (snapshots_enabled K h && negb (c_true err));
      eexists; split; reflexivity.
  - destruct (snapshots_enabled K h); eexists; repeat split.
Qed.

(** The journal state after an extend: the one its call left, or the old one
    when no call was made. *)
Lemma ext4_journal_extend_journal (w : world J) handle h nblocks err w' :
  ext4_handle_valid handle = 1 ->
  deref w handle = Some h ->
  ext4_journal_extend K ops w handle nblocks = Some (err, w') ->
  match extend_request K h nblocks with
  | Some credits =>
      err = (jbd2_journal_extend ops (w_journal w) h credits).1.1 /\
      w_calls w' = w_calls w ++ [JExtend handle credits] /\
      w_journal w' = (jbd2_journal_extend ops (w_journal w) h credits).2
  | None =>
      err = 0 /\ w_calls w' = w_calls w /\ w_journal w' = w_journal w
  end.
Proof.
  intros Hv Hd. rewrite (ext4_journal_extend_valid w handle h nblocks Hv Hd).
  destruct (extend_request K h nblocks) as [credits|].
  - unfold call_journal_extend.
    destruct (jbd2_journal_extend ops (w_journal w) h credits) as [[e h1] j1].
    cbn. destruct (snapshots_enabled K h && negb (c_true e));
      intros [= <- <-]; repeat split.
  - destruct (snapshots_enabled K h); intros [= <- <-]; repeat split.
Qed.

(** C5 (amended): on a valid handle the journal reports as aborted,
    ext4_handle_is_aborted returns the journal's non-zero answer, but no
    credit operation looks at the abort state itself.
    ext4_handle_has_enough_credits returns the value computed from the file
    system and the credit counters of the handle, the same as for any handle
    with equal counters, aborted or not. Restart always makes its one journal
    call and returns the journal's result. Extend makes one journal call when
    further credits are needed and returns the journal's result; when none
    are needed it returns 0 and neither the trace of journal calls nor the
    journal state changes. So both fail on an aborted handle exactly when
    their journal call does. *)
Theorem aborted_handle_operations (w : world J) (handle : N) (h : handle_s) :
  ext4_handle_valid handle = 1 ->
  deref w handle = Some h ->
  c_true (is_handle_aborted ops (w_journal w) h) = true ->
  (exists r, ext4_handle_is_aborted ops w handle = Some r /\ r <> 0) /\
  (forall needed,
     ext4_handle_has_enough_credits K w handle needed
     = Some (enough_credits K h needed)) /\
  (forall needed (w2 : world J) (h2 : handle_s),
     deref w2 handle = Some h2 ->
     h_sb h2 = h_sb h ->
     h_buffer_credits h2 = h_buffer_credits h ->
     h_user_credits h2 = h_user_credits h ->
     ext4_handle_has_enough_credits K w2 handle needed
     = ext4_handle_has_enough_credits K w handle needed) /\
  (forall nblocks,
     exists w',
       ext4_journal_restart K ops w handle nblocks =
         Some ((jbd2_journal_restart ops (w_journal w) h
                  (restart_credits K h nblocks)).1.1, w') /\
       w_calls w' =
         w_calls w ++ [JRestart handle (restart_credits K h nblocks)] /\
       w_journal w' =
         (jbd2_journal_restart ops (w_journal w) h
            (restart_credits K h nblocks)).2) /\
  (forall nblocks,
     match extend_request K h nblocks with
     | Some credits =>
         exists w',
           ext4_journal_extend K ops w handle nblocks =
             Some ((jbd2_journal_extend ops (w_journal w) h credits).1.1, w') /\
           w_calls w' = w_calls w ++ [JExtend handle credits] /\
           w_journal w' =
             (jbd2_journal_extend ops (w_journal w) h credits).2
     | None =>
         exists w',
           ext4_journal_extend K ops w handle nblocks = Some (0, w') /\
           w_calls w' = w_calls w /\ w_journal w' = w_journal w
     end) /\
  (forall nblocks,
     snapshots_enabled K h = true ->
     extend_request K h nblocks =
       (if 0 <? extend_credits h nblocks
        then Some (extend_credits h nblocks) else None)) /\
  (forall nblocks err w',
     (ext4_journal_restart K ops w handle nblocks = Some (err, w') ->
      (err <> 0 <->
       (jbd2_journal_restart ops (w_journal w) h
          (restart_credits K h nblocks)).1.1 <> 0)) /\
     (ext4_journal_extend K ops w handle nblocks = Some (err, w') ->
      (err <> 0 <->
       exists credits,
         extend_request K h nblocks = Some credits /\
         (jbd2_journal_extend ops (w_journal w) h credits).1.1 <> 0))).
Proof.
  intros Hv Hd Hab. split; [|split; [|split; [|split; [|split; [|split]]]]].
  - unfold ext4_handle_is_aborted. rewrite (c_true_valid_above _ Hv), Hd. cbn.
    eexists. split; [reflexivity|]. intros E. rewrite E in Hab. discriminate.
  - intros needed. apply has_enough_credits_valid; assumption.
  - intros needed w2 h2 Hd2 Esb Eb Eu.
    rewrite (has_enough_credits_valid K w2 handle h2 needed Hv Hd2).
    rewrite (has_enough_credits_valid K w handle h needed Hv Hd).
    unfold enough_credits, snapshots_enabled, EXT4_SNAPSHOT_HAS_TRANS_BLOCKS.
    rewrite Esb, Eb, Eu. reflexivity.
  - intros nblocks.
    exact (ext4_journal_restart_calls K ops w handle h nblocks Hv Hd).
  - intros nblocks.
    pose proof (ext4_journal_extend_calls w handle h nblocks Hv Hd) as H.
    pose proof (ext4_journal_extend_journal w handle h nblocks) as HJ.
    destruct (extend_request K h nblocks) as [credits|].
    + destruct H as (w' & E & Hc). exists w'.
      destruct (HJ _ w' Hv Hd E) as (_ & _ & Hj). auto.
    + exact H.
  - intros nblocks Hs. unfold extend_request. rewrite Hs.
    unfold snapshots_enabled in Hs. apply andb_true_iff in Hs as [-> _].
    reflexivity.
  - intros nblocks err w'. split.
    + intros E.
      destruct (ext4_journal_restart_calls K ops w handle h nblocks Hv Hd)
        as (w2 & E2 & _).
      rewrite E2 in E. injection E as <- _. reflexivity.
    + intros E.
      pose proof (ext4_journal_extend_journal w handle h nblocks err w' Hv Hd E)
        as H.
      destruct (extend_request K h nblocks) as [credits|].
      * destruct H as (-> & _). split.
        -- intros Hne. exists credits. split; [reflexivity | exact Hne].
        -- intros (c & [= <-] & Hne). exact Hne.
      * destruct H as (-> & _). split; [congruence|].
        intros (c & Hc & _). discriminate.
Qed.

End Aborted.

(** C5 as stated fails: the restart of a handle on an aborted journal fails
    with -EROFS and marks the handle aborted, the handle still holds 200
    buffer credits for 5 operations, so the credit check for one operation
    returns 1, and an extend by 3 operations (171 credits are enough for 8)
    returns 0. *)
Lemma aborted_handle_has_enough_credits :
  exists w1,
    ext4_journal_restart snapshot_build ref_ops
      (ref_world 1000 true 4096 (started_handle snapshot_sb 200 5)) 4096 2
    = Some (- EROFS, w1) /\
    ext4_handle_is_aborted ref_ops w1 4096 = Some 1 /\
    ext4_handle_has_enough_credits snapshot_build w1 4096 1 = Some 1 /\
    option_map fst (ext4_journal_extend snapshot_build ref_ops w1 4096 3)
    = Some 0.
Proof.
  eexists. split; [vm_compute; reflexivity|].
  repeat split; vm_compute; reflexivity.
Qed.

Lemma aborted_handle_operations_ref :
  (exists r,
     ext4_handle_is_aborted ref_ops
       (ref_world 1000 true 4096 (started_handle snapshot_sb 111 5)) 4096
     = Some r /\ r <> 0) /\
  (forall needed,
     ext4_handle_has_enough_credits snapshot_build
       (ref_world 1000 true 4096 (started_handle snapshot_sb 111 5)) 4096 needed
     = Some (enough_credits snapshot_build (started_handle snapshot_sb 111 5)
               needed)).
Proof.
  pose proof (aborted_handle_operations snapshot_build ref_ops
                (ref_world 1000 true 4096 (started_handle snapshot_sb 111 5))
                4096%N (started_handle snapshot_sb 111 5)
                eq_refl eq_refl eq_refl) as H.
  exact (conj (proj1 H) (proj1 (proj2 H))).
Defined.

(** ** The credit invariant *)

Section Invariant.

Variable K : kbuild.
Context {J : Type}.
Variable ops : journal_ops J.

Hypothesis HK : CONFIG_EXT4_FS_SNAPSHOT_JOURNAL_CREDITS K = true.
Hypothesis HJ : journal_contract ops.


Lemma extend_establishes (w : world J) handle h nblocks w' :
  ext4_handle_valid handle = 1 ->
  deref w handle = Some h ->
  EXT4_SNAPSHOTS (h_sb h) = true ->
  extend_in_range K h nblocks ->
  ext4_journal_extend K ops w handle nblocks = Some (0, w') ->
  exists h',
    deref w' handle = Some h' /\ h_sb h' = h_sb h /\
    h_user_credits h' = h_user_credits h + nblocks /\
    snapshot_invariant h'.
Proof.
  intros Hv Hd Hs (Hu & Hb & Hfu & Hfb & Ht & Hr) E.
  unfold ext4_journal_extend in E. rewrite HK in E.
  rewrite (__ext4_journal_extend_snapshots K ops w handle h nblocks Hv Hd Hs) in E.
  rewrite (extend_credits_eq h nblocks Hu Ht Hr) in E.
  rewrite EXT4_SNAPSHOT_TRANS_BLOCKS_eq in *.
  set (delta := 21 * (h_user_credits h + nblocks) + 3 - h_buffer_credits h) in *.
  destruct (Z.ltb_spec 0 delta) as [Hlt | Hle].
  - unfold call_journal_extend in E.
    destruct (jbd2_journal_extend ops (w_journal w) h delta)
      as [[err h1] j1] eqn:EJ.
    cbn in E. unfold c_true in E.
    destruct (Z.eqb_spec err 0) as [-> | Hne]; cbn in E;
      [|injection E as E1 _; contradiction].
    injection E as <-.
    pose proof (extend_granted ops HJ _ _ _ _ _ EJ) as ->.
    eexists. split; [unfold deref, store; cbn; apply lookup_insert_eq|].
    unfold snapshot_invariant, add_user_credits, int_add. cbn.
    rewrite (sint_id _ Hu), Hfu.
    rewrite (sint_id (h_buffer_credits h + delta))
      by (unfold delta; replace (h_buffer_credits h +
            (21 * (h_user_credits h + nblocks) + 3 - h_buffer_credits h))
          with (21 * (h_user_credits h + nblocks) + 3) by lia; exact Ht).
    repeat split. unfold delta. lia.
  - injection E as <-.
    eexists. split; [unfold deref, store; cbn; apply lookup_insert_eq|].
    unfold snapshot_invariant, add_user_credits, int_add. cbn.
    rewrite (sint_id _ Hu), Hfu. repeat split. unfold delta in Hle. lia.
Qed.


Lemma restart_establishes (w : world J) handle h nblocks w' :
  ext4_handle_valid handle = 1 ->
  deref w handle = Some h ->
  EXT4_SNAPSHOTS (h_sb h) = true ->
  int_range (21 * nblocks + 6) ->
  credits_fit K nblocks ->
  ext4_journal_restart K ops w handle nblocks = Some (0, w') ->
  exists h',
    deref w' handle = Some h' /\ h_sb h' = h_sb h /\
    h_user_credits h' = nblocks /\ h_base_credits h' = nblocks /\
    h_buffer_credits h' = 21 * nblocks + 6 /\
    snapshot_invariant h'.
Proof.
  intros Hv Hd Hs Hr Hf E.
  assert (Hen : snapshots_enabled K h = true)
    by (unfold snapshots_enabled; rewrite HK, Hs; reflexivity).
  rewrite (ext4_journal_restart_valid K ops w handle h nblocks Hv Hd) in E.
  unfold restart_credits, call_journal_restart in E. rewrite Hen, Hf in E.
  rewrite (EXT4_SNAPSHOT_START_TRANS_BLOCKS_int_eq _ Hr) in E.
  destruct (jbd2_journal_restart ops (w_journal w) h (21 * nblocks + 6))
    as [[e h1] j1] eqn:EJ.
  cbn in E. unfold c_true in E.
  destruct (Z.eqb_spec e 0) as [-> | Hne]; cbn in E;
    [|injection E as E1 _; contradiction].
  injection E as <-.
  destruct (restart_granted ops HJ _ _ _ _ _ EJ) as (Hb & Hsb).
  eexists. split; [unfold deref, store; cbn; apply lookup_insert_eq|].
  unfold snapshot_invariant. cbn. rewrite Hb. repeat split; auto. lia.
Qed.


End Invariant.


Example world_after_start_eq :
  ext4_journal_start_sb snapshot_build ref_ops ref_empty_world snapshot_sb 5
  = (inl 4096%N, world_after_start) /\
  deref world_after_start 4096 = Some (started_handle snapshot_sb 111 5) /\
  w_calls world_after_start = [JStart 111].
Proof. repeat split. Qed.

Example world_after_extend_eq :
  ext4_journal_extend snapshot_build ref_ops world_after_start 4096 3
  = Some (0, world_after_extend) /\
  deref world_after_extend 4096 = Some (started_handle snapshot_sb 171 8) /\
  w_calls world_after_extend = [JStart 111; JExtend 4096 60].
Proof. repeat split. Qed.



(** * Further properties of the header *)

(** The data credits without wrap-around, and the range of the single-data
    credits. *)
Lemma data_trans_blocks_eq (K : kbuild) (sb : super_block) :
  0 <= MAXQUOTAS K <= INT_MAX ->
  EXT4_DATA_TRANS_BLOCKS K sb =
    EXT4_SINGLEDATA_TRANS_BLOCKS sb + EXT4_XATTR_TRANS_BLOCKS - 2
    + MAXQUOTAS K * EXT4_QUOTA_TRANS_BLOCKS K sb /\
  8 <= EXT4_SINGLEDATA_TRANS_BLOCKS sb <= 27.
Proof.
  intros Hq.
  assert (Hs : 8 <= EXT4_SINGLEDATA_TRANS_BLOCKS sb <= 27)
    by (unfold EXT4_SINGLEDATA_TRANS_BLOCKS; destruct (s_extents sb); lia).
  split; [|exact Hs].
  unfold EXT4_DATA_TRANS_BLOCKS.
  rewrite (EXT4_MAXQUOTAS_TRANS_BLOCKS_eq K sb Hq).
  assert (Hm : 0 <= MAXQUOTAS K * EXT4_QUOTA_TRANS_BLOCKS K sb <= INT_MAX)
    by (unfold EXT4_QUOTA_TRANS_BLOCKS;
        destruct (CONFIG_QUOTA K), (s_opt_quota sb); lia).
  revert Hs Hm. unfold INT_MAX, EXT4_XATTR_TRANS_BLOCKS.
  generalize (EXT4_SINGLEDATA_TRANS_BLOCKS sb).
  generalize (MAXQUOTAS K * EXT4_QUOTA_TRANS_BLOCKS K sb).
  intros q s Hs Hm. unfold uint_add, uint_sub, uint.
  rewrite (Z.mod_small (s + 6)) by lia.
  rewrite (Z.mod_small (s + 6 - 2)) by lia.
  rewrite (Z.mod_small q) by lia.
  apply Z.mod_small. lia.
Qed.


(** ** The other credit macros *)

(** X1: when the quota term cannot wrap (0 <= MAXQUOTAS < 2^30),
    EXT4_META_TRANS_BLOCKS is 6 plus the quota term, EXT4_DATA_TRANS_BLOCKS
    is the meta credits plus the single-data credits minus 2, and
    EXT4_DELETE_TRANS_BLOCKS is twice the data credits plus 64 without
    wrapping, so that meta < data < delete. *)
Theorem meta_data_delete_trans_blocks (K : kbuild) (sb : super_block) :
  0 <= MAXQUOTAS K <= 1073741823 ->
  EXT4_META_TRANS_BLOCKS K sb =
    EXT4_XATTR_TRANS_BLOCKS + MAXQUOTAS K * EXT4_QUOTA_TRANS_BLOCKS K sb /\
  EXT4_DATA_TRANS_BLOCKS K sb =
    EXT4_META_TRANS_BLOCKS K sb + (EXT4_SINGLEDATA_TRANS_BLOCKS sb - 2) /\
  EXT4_DELETE_TRANS_BLOCKS K sb = 2 * EXT4_DATA_TRANS_BLOCKS K sb + 64 /\
  EXT4_META_TRANS_BLOCKS K sb < EXT4_DATA_TRANS_BLOCKS K sb /\
  EXT4_DATA_TRANS_BLOCKS K sb < EXT4_DELETE_TRANS_BLOCKS K sb.
Proof.
  intros Hq.
  assert (Hq' : 0 <= MAXQUOTAS K <= INT_MAX) by (unfold INT_MAX; lia).
  destruct (data_trans_blocks_eq K sb Hq') as [Hd Hs].
  assert (Hm : 0 <= MAXQUOTAS K * EXT4_QUOTA_TRANS_BLOCKS K sb <= 1073741823)
    by (unfold EXT4_QUOTA_TRANS_BLOCKS;
        destruct (CONFIG_QUOTA K), (s_opt_quota sb); lia).
  assert (Hmeta : EXT4_META_TRANS_BLOCKS K sb =
                  EXT4_XATTR_TRANS_BLOCKS
                  + MAXQUOTAS K * EXT4_QUOTA_TRANS_BLOCKS K sb).
  { unfold EXT4_META_TRANS_BLOCKS.
    rewrite (EXT4_MAXQUOTAS_TRANS_BLOCKS_eq K sb Hq').
    unfold uint_add, uint, EXT4_XATTR_TRANS_BLOCKS.
    rewrite (Z.mod_small (MAXQUOTAS K * EXT4_QUOTA_TRANS_BLOCKS K sb)) by lia.
    apply Z.mod_small. lia. }
  assert (Hdel : EXT4_DELETE_TRANS_BLOCKS K sb =
                 2 * EXT4_DATA_TRANS_BLOCKS K sb + 64).
  { unfold EXT4_DELETE_TRANS_BLOCKS, uint_add, uint_mul, uint.
    rewrite Hd. unfold EXT4_XATTR_TRANS_BLOCKS.
    rewrite (Z.mod_small (2 * _)) by lia. apply Z.mod_small. lia. }
  rewrite Hdel, Hmeta, Hd. unfold EXT4_XATTR_TRANS_BLOCKS. repeat split; lia.
Qed.

Lemma meta_data_delete_trans_blocks_quota_on :
  EXT4_META_TRANS_BLOCKS snapshot_build quota_sb =
    EXT4_XATTR_TRANS_BLOCKS
    + MAXQUOTAS snapshot_build * EXT4_QUOTA_TRANS_BLOCKS snapshot_build quota_sb /\
  EXT4_DATA_TRANS_BLOCKS snapshot_build quota_sb =
    EXT4_META_TRANS_BLOCKS snapshot_build quota_sb
    + (EXT4_SINGLEDATA_TRANS_BLOCKS quota_sb - 2) /\
  EXT4_DELETE_TRANS_BLOCKS snapshot_build quota_sb =
    2 * EXT4_DATA_TRANS_BLOCKS snapshot_build quota_sb + 64 /\
  EXT4_META_TRANS_BLOCKS snapshot_build quota_sb
    < EXT4_DATA_TRANS_BLOCKS snapshot_build quota_sb /\
  EXT4_DATA_TRANS_BLOCKS snapshot_build quota_sb
    < EXT4_DELETE_TRANS_BLOCKS snapshot_build quota_sb.
Proof.
  apply (meta_data_delete_trans_blocks snapshot_build quota_sb).
  vm_compute. split; discriminate.
Defined.

Example trans_blocks_samples :
  EXT4_META_TRANS_BLOCKS snapshot_build quota_sb = 8 /\
  EXT4_DATA_TRANS_BLOCKS snapshot_build quota_sb = 33 /\
  EXT4_DELETE_TRANS_BLOCKS snapshot_build quota_sb = 130 /\
  EXT4_DELETE_TRANS_BLOCKS snapshot_build plain_sb = 126.
Proof. repeat split. Qed.

(** X2: the accounting of the comment above the snapshot macros, on the
    header's int evaluation. For counts N, M >= 0 with N + M <= 102261125,
    the largest count whose credits fit in an int: a start for N operations
    asks for the N credits of the caller, 20(N-1)+3 COW credits and the
    reserve EXT4_RESERVE_COW_CREDITS = 20+3 for the last COW operation; this
    is the steady-state amount plus EXT4_SNAPSHOT_CREDITS; M further
    operations cost (1 + EXT4_COW_CREDITS) * M = 21 M credits, so the
    steady-state amount is monotone, and for M >= 1 the credits of a start for
    N operations do not cover N + M operations. At the next count the int
    computation wraps and monotonicity fails. *)
Theorem snapshot_credit_accounting (n m : Z) :
  0 <= n -> 0 <= m -> n + m <= 102261125 ->
  EXT4_RESERVE_COW_CREDITS = 23 /\
  EXT4_SNAPSHOT_START_TRANS_BLOCKS_int n =
    n + (EXT4_COW_CREDITS * (n - 1) + EXT4_SNAPSHOT_CREDITS)
    + EXT4_RESERVE_COW_CREDITS /\
  EXT4_SNAPSHOT_START_TRANS_BLOCKS_int n =
    EXT4_SNAPSHOT_TRANS_BLOCKS_int n + EXT4_SNAPSHOT_CREDITS /\
  EXT4_SNAPSHOT_TRANS_BLOCKS_int (n + m) =
    EXT4_SNAPSHOT_TRANS_BLOCKS_int n + (1 + EXT4_COW_CREDITS) * m /\
  EXT4_SNAPSHOT_TRANS_BLOCKS_int n <= EXT4_SNAPSHOT_TRANS_BLOCKS_int (n + m) /\
  (1 <= m ->
   EXT4_SNAPSHOT_START_TRANS_BLOCKS_int n
     < EXT4_SNAPSHOT_TRANS_BLOCKS_int (n + m)) /\
  EXT4_SNAPSHOT_TRANS_BLOCKS_int (102261125 + 1)
    < EXT4_SNAPSHOT_TRANS_BLOCKS_int 102261125.
Proof.
  intros Hn Hm Hnm.
  rewrite (EXT4_SNAPSHOT_START_TRANS_BLOCKS_int_eq n)
    by (unfold int_range, INT_MIN, INT_MAX; lia).
  rewrite (EXT4_SNAPSHOT_TRANS_BLOCKS_int_eq n)
    by (unfold int_range, INT_MIN, INT_MAX; lia).
  rewrite (EXT4_SNAPSHOT_TRANS_BLOCKS_int_eq (n + m))
    by (unfold int_range, INT_MIN, INT_MAX; lia).
  rewrite EXT4_COW_CREDITS_eq.
  change EXT4_RESERVE_COW_CREDITS with 23. change EXT4_SNAPSHOT_CREDITS with 3.
  do 5 (split; [lia|]). split; [lia|]. vm_compute. reflexivity.
Qed.

Lemma snapshot_credit_accounting_5_3 :
  EXT4_RESERVE_COW_CREDITS = 23 /\
  EXT4_SNAPSHOT_START_TRANS_BLOCKS_int 5 =
    5 + (EXT4_COW_CREDITS * (5 - 1) + EXT4_SNAPSHOT_CREDITS)
    + EXT4_RESERVE_COW_CREDITS /\
  EXT4_SNAPSHOT_START_TRANS_BLOCKS_int 5 =
    EXT4_SNAPSHOT_TRANS_BLOCKS_int 5 + EXT4_SNAPSHOT_CREDITS /\
  EXT4_SNAPSHOT_TRANS_BLOCKS_int (5 + 3) =
    EXT4_SNAPSHOT_TRANS_BLOCKS_int 5 + (1 + EXT4_COW_CREDITS) * 3 /\
  EXT4_SNAPSHOT_TRANS_BLOCKS_int 5 <= EXT4_SNAPSHOT_TRANS_BLOCKS_int (5 + 3) /\
  (1 <= 3 ->
   EXT4_SNAPSHOT_START_TRANS_BLOCKS_int 5
     < EXT4_SNAPSHOT_TRANS_BLOCKS_int (5 + 3)) /\
  EXT4_SNAPSHOT_TRANS_BLOCKS_int (102261125 + 1)
    < EXT4_SNAPSHOT_TRANS_BLOCKS_int 102261125.
Proof.
  apply (snapshot_credit_accounting 5 3); discriminate.
Defined.

(** ** Data modes of an inode *)

Section DataModes.

Variable K : kbuild.

(** X3: the three data modes are exclusive and exhaustive: for every inode,
    in every build, exactly one of ext4_should_journal_data,
    ext4_should_order_data and ext4_should_writeback_data returns 1 and the
    other two return 0. An inode without a journal is in writeback mode and a
    journalled inode that is no regular file has its data journalled. *)
Theorem data_modes_exclusive (inode : inode) :
  (ext4_should_journal_data K inode = 1 /\
   ext4_should_order_data K inode = 0 /\
   ext4_should_writeback_data K inode = 0) \/
  (ext4_should_journal_data K inode = 0 /\
   ext4_should_order_data K inode = 1 /\
   ext4_should_writeback_data K inode = 0) \/
  (ext4_should_journal_data K inode = 0 /\
   ext4_should_order_data K inode = 0 /\
   ext4_should_writeback_data K inode = 1).
Proof.
  unfold ext4_should_journal_data, ext4_should_order_data,
    ext4_should_writeback_data.
  destruct (EXT4_JOURNAL inode), (i_isreg inode),
    (snapshots_enforce_ordered K inode), (i_flag_journal_data inode),
    (s_data_flags (i_sb inode)); cbn; auto.
Qed.

(** X4: the modes outside the forced cases. An inode without a journal is
    in writeback mode; with a journal, a file that is not regular has its
    data journalled. For a regular file with a journal on which snapshots do
    not force ordered mode, the inode flag EXT4_INODE_JOURNAL_DATA or the
    mount option journal-data gives journalled data, and the ordered and
    writeback mount options apply only when the flag is clear. *)
Theorem data_mode_selection (inode : inode) :
  (EXT4_JOURNAL inode = false ->
   ext4_should_writeback_data K inode = 1) /\
  (EXT4_JOURNAL inode = true -> i_isreg inode = false ->
   ext4_should_journal_data K inode = 1) /\
  (EXT4_JOURNAL inode = true -> i_isreg inode = true ->
   snapshots_enforce_ordered K inode = false ->
   (ext4_should_journal_data K inode = 1 <->
      i_flag_journal_data inode = true \/
      s_data_flags (i_sb inode) = EXT4_MOUNT_JOURNAL_DATA) /\
   (ext4_should_order_data K inode = 1 <->
      i_flag_journal_data inode = false /\
      s_data_flags (i_sb inode) = EXT4_MOUNT_ORDERED_DATA) /\
   (ext4_should_writeback_data K inode = 1 <->
      i_flag_journal_data inode = false /\
      s_data_flags (i_sb inode) = EXT4_MOUNT_WRITEBACK_DATA)).
Proof.
  unfold ext4_should_journal_data, ext4_should_order_data,
    ext4_should_writeback_data.
  split; [|split].
  - intros ->. reflexivity.
  - intros -> ->. reflexivity.
  - intros -> -> ->. cbn.
    destruct (i_flag_journal_data inode), (s_data_flags (i_sb inode)); cbn;
      repeat split; intros; try reflexivity; try discriminate; auto;
      repeat match goal with
             | H : _ \/ _ |- _ => destruct H
             | H : _ /\ _ |- _ => destruct H
             end; discriminate.
Qed.

(** X5: ext4_should_dioread_nolock returns 1 exactly for a regular,
    extent-mapped file of a file system mounted with dioread_nolock on which
    snapshots do not force ordered mode and whose data is not journalled;
    in particular never together with ext4_should_journal_data. *)
Theorem dioread_nolock_cases (inode : inode) :
  (ext4_should_dioread_nolock K inode = 1 <->
     s_opt_dioread_nolock (i_sb inode) = true /\
     i_isreg inode = true /\
     snapshots_enforce_ordered K inode = false /\
     i_flag_extents inode = true /\
     ext4_should_journal_data K inode = 0) /\
  (ext4_should_dioread_nolock K inode = 1 \/
   ext4_should_dioread_nolock K inode = 0) /\
  ~ (ext4_should_dioread_nolock K inode = 1 /\
     ext4_should_journal_data K inode = 1).
Proof.
  assert (Hj : ext4_should_journal_data K inode = 1 \/
               ext4_should_journal_data K inode = 0)
    by (unfold ext4_should_journal_data;
        repeat match goal with |- context [if ?b then _ else _] => destruct b end;
        auto).
  unfold ext4_should_dioread_nolock.
  destruct (s_opt_dioread_nolock (i_sb inode)), (i_isreg inode),
    (snapshots_enforce_ordered K inode), (i_flag_extents inode); cbn;
    try (repeat split; auto; intros; intuition discriminate).
  all: destruct Hj as [-> | ->]; cbn;
    repeat split; auto; intros; intuition discriminate.
Qed.

End DataModes.

(** X6: ext4_snapshot_should_move_data. Data blocks are moved on write only
    for a regular file of a snapshot file system with a journal, which is
    then in ordered mode; never for an inode excluded from snapshots when
    CONFIG_EXT4_FS_SNAPSHOT_FILE is set, and never for an extent-mapped file
    unless CONFIG_EXT4_FS_SNAPSHOT_HOOKS_EXTENT is set. For the other regular
    files of such a file system it returns 1 whatever the mount option and
    the inode flag. *)
Theorem snapshot_move_data_cases (K : kbuild) (KH : kbuild_hooks)
    (inode : inode) (excluded : bool) :
  CONFIG_EXT4_FS_SNAPSHOT K = true ->
  (ext4_snapshot_should_move_data K KH inode excluded = 1 ->
   EXT4_SNAPSHOTS (i_sb inode) = true /\ EXT4_JOURNAL inode = true /\
   i_isreg inode = true /\
   ext4_should_order_data K inode = 1 /\
   ext4_should_journal_data K inode = 0 /\
   (CONFIG_EXT4_FS_SNAPSHOT_FILE KH = true -> excluded = false) /\
   (CONFIG_EXT4_FS_SNAPSHOT_HOOKS_EXTENT KH = false ->
    i_flag_extents inode = false)) /\
  (EXT4_SNAPSHOTS (i_sb inode) = true -> EXT4_JOURNAL inode = true ->
   i_isreg inode = true ->
   CONFIG_EXT4_FS_SNAPSHOT_FILE KH && excluded = false ->
   negb (CONFIG_EXT4_FS_SNAPSHOT_HOOKS_EXTENT KH) && i_flag_extents inode = false ->
   ext4_snapshot_should_move_data K KH inode excluded = 1) /\
  (ext4_snapshot_should_move_data K KH inode excluded = 1 \/
   ext4_snapshot_should_move_data K KH inode excluded = 0).
Proof.
  intros HK.
  unfold ext4_snapshot_should_move_data, ext4_should_journal_data,
    ext4_should_order_data, snapshots_enforce_ordered.
  rewrite HK.
  destruct (EXT4_SNAPSHOTS (i_sb inode)), (EXT4_JOURNAL inode),
    (i_isreg inode), (CONFIG_EXT4_FS_SNAPSHOT_FILE KH), excluded,
    (CONFIG_EXT4_FS_SNAPSHOT_HOOKS_EXTENT KH), (i_flag_extents inode); cbn;
    repeat split; auto; intros; try discriminate.
Qed.

Lemma snapshot_move_data_cases_journal_inode :
  ext4_snapshot_should_move_data snapshot_build all_hooks journal_data_inode
    false = 1 /\
  ext4_should_order_data snapshot_build journal_data_inode = 1 /\
  ext4_snapshot_should_move_data snapshot_build all_hooks journal_data_inode
    true = 0.
Proof.
  pose proof (snapshot_move_data_cases snapshot_build all_hooks
                journal_data_inode false eq_refl) as H.
  pose proof (proj1 (proj2 H) eq_refl eq_refl eq_refl eq_refl eq_refl) as H1.
  split; [exact H1|]. split; [exact (proj1 (proj2 (proj2 (proj2 (proj1 H H1)))))|].
  reflexivity.
Defined.

Example data_mode_samples :
  ext4_should_journal_data snapshot_build
    (plain_inode EXT4_MOUNT_ORDERED_DATA true) = 1 /\
  ext4_should_order_data snapshot_build
    (plain_inode EXT4_MOUNT_ORDERED_DATA false) = 1 /\
  ext4_should_writeback_data snapshot_build
    (plain_inode EXT4_MOUNT_WRITEBACK_DATA false) = 1 /\
  ext4_should_dioread_nolock snapshot_build
    (plain_inode EXT4_MOUNT_WRITEBACK_DATA false) = 1 /\
  ext4_should_dioread_nolock snapshot_build
    (plain_inode EXT4_MOUNT_JOURNAL_DATA false) = 0 /\
  ext4_should_dioread_nolock snapshot_build journal_data_inode = 0.
Proof. repeat split. Qed.

(** ** More on the credit check, extend and restart *)

Section CreditsFurther.

Variable K : kbuild.
Context {J : Type}.
Variable ops : journal_ops J.

(** An extend that needs no further credits, as a function of the world. *)
Lemma extend_no_call_state (w : world J) handle h nblocks :
  CONFIG_EXT4_FS_SNAPSHOT_JOURNAL_CREDITS K = true ->
  ext4_handle_valid handle = 1 ->
  deref w handle = Some h ->
  EXT4_SNAPSHOTS (h_sb h) = true ->
  extend_in_range K h nblocks ->
  EXT4_SNAPSHOT_TRANS_BLOCKS (h_user_credits h + nblocks) - h_buffer_credits h <= 0 ->
  ext4_journal_extend K ops w handle nblocks =
    Some (0, store w handle
               (set_h_user_credits (h_user_credits h + nblocks)
                  (set_h_base_credits (h_base_credits h + nblocks) h))).
Proof.
  intros HK Hv Hd Hs (Hu & Hb & Hfu & Hfb & Ht & Hr) Hle.
  unfold ext4_journal_extend. rewrite HK.
  rewrite (__ext4_journal_extend_snapshots K ops w handle h nblocks Hv Hd Hs).
  rewrite (extend_credits_eq h nblocks Hu Ht Hr).
  destruct (Z.ltb_spec 0 (EXT4_SNAPSHOT_TRANS_BLOCKS (h_user_credits h + nblocks)
                          - h_buffer_credits h)); [lia|].
  unfold add_user_credits, int_add. cbn.
  rewrite (sint_id _ Hu), (sint_id _ Hb), Hfu, Hfb. reflexivity.
Qed.

(** The handle object after a granted extend. *)
Lemma extend_granted_state (w : world J) handle h nblocks w' :
  CONFIG_EXT4_FS_SNAPSHOT_JOURNAL_CREDITS K = true ->
  journal_contract ops ->
  ext4_handle_valid handle = 1 ->
  deref w handle = Some h ->
  EXT4_SNAPSHOTS (h_sb h) = true ->
  extend_in_range K h nblocks ->
  ext4_journal_extend K ops w handle nblocks = Some (0, w') ->
  deref w' handle =
    Some (set_h_user_credits (h_user_credits h + nblocks)
            (set_h_base_credits (h_base_credits h + nblocks)
               (set_h_buffer_credits
                  (Z.max (h_buffer_credits h)
                     (EXT4_SNAPSHOT_TRANS_BLOCKS (h_user_credits h + nblocks)))
                  h))).
Proof.
  intros HK HJ Hv Hd Hs Hin E.
  destruct (Z.le_gt_cases
              (EXT4_SNAPSHOT_TRANS_BLOCKS (h_user_credits h + nblocks)
               - h_buffer_credits h) 0) as [Hle | Hgt].
  - rewrite (extend_no_call_state w handle h nblocks HK Hv Hd Hs Hin Hle) in E.
    injection E as <-. unfold deref, store. cbn. rewrite lookup_insert_eq.
    rewrite Z.max_l by lia. destruct h; reflexivity.
  - destruct Hin as (Hu & Hb & Hfu & Hfb & Ht & Hr).
    unfold ext4_journal_extend in E. rewrite HK in E.
    rewrite (__ext4_journal_extend_snapshots K ops w handle h nblocks Hv Hd Hs)
      in E.
    rewrite (extend_credits_eq h nblocks Hu Ht Hr) in E.
    set (delta := EXT4_SNAPSHOT_TRANS_BLOCKS (h_user_credits h + nblocks)
                  - h_buffer_credits h) in *.
    destruct (Z.ltb_spec 0 delta); [|lia].
    unfold call_journal_extend in E.
    destruct (jbd2_journal_extend ops (w_journal w) h delta)
      as [[err h1] j1] eqn:EJ.
    cbn in E. unfold c_true in E.
    destruct (Z.eqb_spec err 0) as [-> | Hne]; cbn in E;
      [|injection E as E1 _; contradiction].
    injection E as <-.
    pose proof (extend_granted ops HJ _ _ _ _ _ EJ) as ->.
    unfold deref, store. cbn. rewrite lookup_insert_eq.
    unfold add_user_credits, int_add. cbn.
    rewrite (sint_id _ Hu), (sint_id _ Hb), Hfu, Hfb.
    rewrite (sint_id (h_buffer_credits h + delta))
      by (unfold delta;
          replace (h_buffer_credits h +
                   (EXT4_SNAPSHOT_TRANS_BLOCKS (h_user_credits h + nblocks)
                    - h_buffer_credits h))
            with (EXT4_SNAPSHOT_TRANS_BLOCKS (h_user_credits h + nblocks))
            by lia; exact Ht).
    rewrite Z.max_r by (unfold delta in *; lia).
    unfold set_h_user_credits, set_h_base_credits, set_h_buffer_credits. cbn.
    do 2 f_equal. unfold delta. lia.
Qed.

(** Under the credit invariant the check is a test of the user credits. *)
Lemma enough_credits_invariant h needed :
  snapshots_enabled K h = true ->
  snapshot_invariant h ->
  h_buffer_credits h <= INT_MAX ->
  0 <= needed ->
  (enough_credits K h needed = 1 <-> needed <= h_user_credits h).
Proof.
  intros Hs Hinv Hb Hn. unfold snapshot_invariant in Hinv.
  assert (Hu : 21 * h_user_credits h + 3 <= INT_MAX) by lia.
  rewrite (enough_credits_snapshots_count K h needed Hs Hn Hu). lia.
Qed.

(** X7: on a valid handle with snapshots enabled that satisfies
    h_buffer_credits >= 21 * h_user_credits + 3, the credit check for a count
    n >= 0 succeeds exactly when n <= h_user_credits: the buffer credits never
    decide. *)
Theorem credit_check_under_invariant (w : world J) (handle : N) (h : handle_s)
    (needed : Z) :
  ext4_handle_valid handle = 1 ->
  deref w handle = Some h ->
  snapshots_enabled K h = true ->
  snapshot_invariant h ->
  h_buffer_credits h <= INT_MAX ->
  0 <= needed ->
  (ext4_handle_has_enough_credits K w handle needed = Some 1 <->
     needed <= h_user_credits h) /\
  (ext4_handle_has_enough_credits K w handle needed = Some 0 <->
     h_user_credits h < needed).
Proof.
  intros Hv Hd Hs Hinv Hb Hn.
  rewrite (has_enough_credits_valid K w handle h needed Hv Hd).
  pose proof (enough_credits_invariant h needed Hs Hinv Hb Hn) as H1.
  assert (H01 : enough_credits K h needed = 1 \/ enough_credits K h needed = 0).
  { unfold enough_credits, EXT4_SNAPSHOT_HAS_TRANS_BLOCKS, c_bool.
    destruct (snapshots_enabled K h);
      repeat match goal with |- context [if ?b then _ else _] => destruct b end;
      auto. }
  split; split.
  - intros [= E]. apply H1, E.
  - intros E. f_equal. apply H1, E.
  - intros [= E]. destruct (Z.le_gt_cases needed (h_user_credits h)) as [Hle|Hgt];
      [|lia]. apply H1 in Hle. congruence.
  - intros E. f_equal. destruct H01 as [E1 | E0]; [|exact E0].
    apply H1 in E1. lia.
Qed.


(** X9: granted extends compose: with a, b >= 0, an extend by a followed by
    an extend by b, both returning 0, leaves the handle object exactly as one
    extend by a + b that returns 0. *)
Theorem extend_composes (w : world J) (handle : N) (h : handle_s) (a b : Z)
    (w1 w2 w3 : world J) :
  CONFIG_EXT4_FS_SNAPSHOT_JOURNAL_CREDITS K = true ->
  journal_contract ops ->
  ext4_handle_valid handle = 1 ->
  deref w handle = Some h ->
  EXT4_SNAPSHOTS (h_sb h) = true ->
  0 <= a -> 0 <= b ->
  extend_in_range K h a ->
  extend_in_range K h (a + b) ->
  ext4_journal_extend K ops w handle a = Some (0, w1) ->
  ext4_journal_extend K ops w1 handle b = Some (0, w2) ->
  ext4_journal_extend K ops w handle (a + b) = Some (0, w3) ->
  deref w2 handle = deref w3 handle.
Proof.
  intros HK HJ Hv Hd Hs Ha Hb Hina Hinab E1 E2 E3.
  pose proof (extend_granted_state w handle h a w1 HK HJ Hv Hd Hs Hina E1) as D1.
  pose proof (extend_granted_state w handle h (a + b) w3 HK HJ Hv Hd Hs Hinab E3)
    as D3.
  set (h1 := set_h_user_credits (h_user_credits h + a)
               (set_h_base_credits (h_base_credits h + a)
                  (set_h_buffer_credits
                     (Z.max (h_buffer_credits h)
                        (EXT4_SNAPSHOT_TRANS_BLOCKS (h_user_credits h + a))) h)))
    in *.
  assert (Hin1 : extend_in_range K h1 b).
  { destruct Hina as (Hu & Hb1 & Hfu & Hfb & Ht & Hr).
    destruct Hinab as (Hu' & Hb' & Hfu' & Hfb' & Ht' & Hr').
    unfold extend_in_range, h1. cbn.
    rewrite <- !Z.add_assoc. do 5 (split; [assumption|]).
    rewrite !EXT4_SNAPSHOT_TRANS_BLOCKS_eq in *.
    unfold int_range, INT_MIN, INT_MAX in *. lia. }
  pose proof (extend_granted_state w1 handle h1 b w2 HK HJ Hv D1 Hs Hin1 E2) as D2.
  rewrite D2, D3. unfold h1. cbn.
  unfold set_h_user_credits, set_h_base_credits, set_h_buffer_credits. cbn.
  rewrite !EXT4_SNAPSHOT_TRANS_BLOCKS_eq. do 2 f_equal; lia.
Qed.

End CreditsFurther.

Lemma credit_check_under_invariant_after_start :
  (ext4_handle_has_enough_credits snapshot_build world_after_start 4096 5
   = Some 1 <-> 5 <= h_user_credits (started_handle snapshot_sb 111 5)) /\
  (ext4_handle_has_enough_credits snapshot_build world_after_start 4096 5
   = Some 0 <-> h_user_credits (started_handle snapshot_sb 111 5) < 5).
Proof.
  apply (credit_check_under_invariant snapshot_build world_after_start 4096%N
           (started_handle snapshot_sb 111 5) 5 eq_refl eq_refl eq_refl);
    vm_compute; discriminate.
Defined.


Lemma extend_composes_3_then_2 :
  deref (run_extend (run_extend world_after_start 4096 3) 4096 2) 4096
  = deref (run_extend world_after_start 4096 (3 + 2)) 4096.
Proof.
  apply (extend_composes snapshot_build ref_ops world_after_start 4096%N
           (started_handle snapshot_sb 111 5) 3 2
           (run_extend world_after_start 4096 3)
           (run_extend (run_extend world_after_start 4096 3) 4096 2)
           (run_extend world_after_start 4096 (3 + 2))
           eq_refl ref_ops_contract eq_refl eq_refl eq_refl).
  - discriminate.
  - discriminate.
  - vm_compute. repeat split; try discriminate; reflexivity.
  - vm_compute. repeat split; try discriminate; reflexivity.
  - reflexivity.
  - reflexivity.
  - reflexivity.
Defined.

Example extend_composes_sample :
  deref (run_extend (run_extend world_after_start 4096 3) 4096 2) 4096
  = Some (started_handle snapshot_sb 213 10) /\
  w_calls (run_extend (run_extend world_after_start 4096 3) 4096 2)
  = [JStart 111; JExtend 4096 60; JExtend 4096 42] /\
  w_calls (run_extend world_after_start 4096 5)
  = [JStart 111; JExtend 4096 102].
Proof. repeat split. Qed.

Section AfterGrant.

Variable K : kbuild.
Context {J : Type}.
Variable ops : journal_ops J.

Lemma has_enough_credits_invariant (w : world J) handle h needed :
  ext4_handle_valid handle = 1 ->
  deref w handle = Some h ->
  snapshots_enabled K h = true ->
  snapshot_invariant h ->
  h_buffer_credits h <= INT_MAX ->
  0 <= needed ->
  (ext4_handle_has_enough_credits K w handle needed = Some 1 <->
     needed <= h_user_credits h).
Proof.
  intros Hv Hd Hs Hinv Hb Hn.
  rewrite (has_enough_credits_valid K w handle h needed Hv Hd).
  pose proof (enough_credits_invariant K h needed Hs Hinv Hb Hn) as H1.
  split; [intros [= E]; apply H1, E | intros E; f_equal; apply H1, E].
Qed.

(** X10: what a grant buys, for counts in range. With snapshots enabled and
    a journal that keeps its contract, after an extend by n that returned 0,
    where the int computations of the extend do not overflow and the new
    counts h_user_credits + n and h_base_credits + n are representable in the
    counters, the credit check for a count m >= 0 succeeds exactly when
    m <= h_user_credits + n; after a restart for n operations that returned
    0, where 21n+6 is representable as int and n in the counters, it succeeds
    exactly when m <= n, whatever the handle held before. *)
Theorem credit_check_after_grant (w : world J) (handle : N) (h : handle_s)
    (needed : Z) :
  CONFIG_EXT4_FS_SNAPSHOT_JOURNAL_CREDITS K = true ->
  journal_contract ops ->
  ext4_handle_valid handle = 1 ->
  deref w handle = Some h ->
  EXT4_SNAPSHOTS (h_sb h) = true ->
  h_buffer_credits h <= INT_MAX ->
  0 <= needed ->
  (forall nblocks w',
     extend_in_range K h nblocks ->
     ext4_journal_extend K ops w handle nblocks = Some (0, w') ->
     (ext4_handle_has_enough_credits K w' handle needed = Some 1 <->
        needed <= h_user_credits h + nblocks)) /\
  (forall nblocks w',
     int_range (21 * nblocks + 6) ->
     credits_fit K nblocks ->
     ext4_journal_restart K ops w handle nblocks = Some (0, w') ->
     (ext4_handle_has_enough_credits K w' handle needed = Some 1 <->
        needed <= nblocks)).
Proof.
  intros HK HJ Hv Hd Hs Hb Hn. split.
  - intros nblocks w' Hin E.
    pose proof (extend_granted_state K ops w handle h nblocks w'
                  HK HJ Hv Hd Hs Hin E) as D.
    destruct (extend_establishes K ops HK HJ w handle h nblocks w' Hv Hd Hs Hin E)
      as (h' & D' & Hsb & Hu & Hinv).
    rewrite D in D'. injection D' as <-. cbn in Hu.
    rewrite (has_enough_credits_invariant w' handle _ needed Hv D).
    + cbn. reflexivity.
    + unfold snapshots_enabled. cbn. rewrite HK, Hs. reflexivity.
    + exact Hinv.
    + cbn. destruct Hin as (_ & _ & _ & _ & Ht & _).
      unfold int_range, INT_MAX in *. lia.
    + exact Hn.
  - intros nblocks w' Hr Hf E.
    destruct (restart_establishes K ops HK HJ w handle h nblocks w'
                Hv Hd Hs Hr Hf E)
      as (h' & D' & Hsb & Hu & _ & Hbuf & Hinv).
    rewrite (has_enough_credits_invariant w' handle h' needed Hv D').
    + rewrite Hu. reflexivity.
    + unfold snapshots_enabled. rewrite Hsb, HK, Hs. reflexivity.
    + exact Hinv.
    + rewrite Hbuf. unfold int_range, INT_MAX in *. lia.
    + exact Hn.
Qed.

(** X16: an extend that gives credits back. On a valid handle with snapshots
    enabled that satisfies the credit invariant, an extend by n <= 0 whose
    new counts h_user_credits + n and h_base_credits + n are representable in
    the counters (and whose int computations do not overflow) returns 0
    without a journal call: the buffer credits stay, h_user_credits and
    h_base_credits change by n, and for n = 0 the world is left exactly as
    it was. *)
Theorem extend_nonpositive (w : world J) (handle : N) (h : handle_s)
    (nblocks : Z) :
  CONFIG_EXT4_FS_SNAPSHOT_JOURNAL_CREDITS K = true ->
  ext4_handle_valid handle = 1 ->
  deref w handle = Some h ->
  EXT4_SNAPSHOTS (h_sb h) = true ->
  snapshot_invariant h ->
  nblocks <= 0 ->
  extend_in_range K h nblocks ->
  exists w',
    ext4_journal_extend K ops w handle nblocks = Some (0, w') /\
    w_calls w' = w_calls w /\ w_journal w' = w_journal w /\
    deref w' handle =
      Some (set_h_user_credits (h_user_credits h + nblocks)
              (set_h_base_credits (h_base_credits h + nblocks) h)) /\
    (nblocks = 0 -> w' = w).
Proof.
  intros HK Hv Hd Hs Hinv Hn Hin.
  assert (Hle : EXT4_SNAPSHOT_TRANS_BLOCKS (h_user_credits h + nblocks)
                - h_buffer_credits h <= 0)
    by (rewrite EXT4_SNAPSHOT_TRANS_BLOCKS_eq; unfold snapshot_invariant in Hinv;
        lia).
  rewrite (extend_no_call_state K ops w handle h nblocks HK Hv Hd Hs Hin Hle).
  eexists. split; [reflexivity|]. split; [reflexivity|]. split; [reflexivity|].
  split.
  - unfold deref, store. cbn. apply lookup_insert_eq.
  - intros ->. rewrite !Z.add_0_r.
    replace (set_h_user_credits (h_user_credits h)
               (set_h_base_credits (h_base_credits h) h)) with h
      by (destruct h; reflexivity).
    unfold store, set_w_heap. unfold deref in Hd.
    rewrite (insert_id _ _ _ Hd). destruct w; reflexivity.
Qed.

(** X15: the credit check is monotone in the count: when it succeeds for n
    it succeeds for every m <= n (with snapshots enabled, for counts whose
    21m+3 and 21n+3 are representable as int). *)
Theorem credit_check_monotone (w : world J) (handle : N) (h : handle_s)
    (n m : Z) :
  ext4_handle_valid handle = 1 ->
  deref w handle = Some h ->
  m <= n ->
  (snapshots_enabled K h = true ->
   int_range (21 * m + 3) /\ int_range (21 * n + 3)) ->
  ext4_handle_has_enough_credits K w handle n = Some 1 ->
  ext4_handle_has_enough_credits K w handle m = Some 1.
Proof.
  intros Hv Hd Hmn Hr.
  rewrite !(has_enough_credits_valid K w handle h _ Hv Hd).
  intros [= E]. f_equal.
  destruct (snapshots_enabled K h) eqn:Hs.
  - destruct (Hr eq_refl) as [Hrm Hrn].
    apply (enough_credits_snapshots K h m Hs Hrm).
    apply (enough_credits_snapshots K h n Hs Hrn) in E. lia.
  - apply (enough_credits_plain K h m Hs).
    apply (enough_credits_plain K h n Hs) in E. lia.
Qed.

End AfterGrant.

Lemma credit_check_after_grant_scenario :
  (ext4_handle_has_enough_credits snapshot_build
     (run_extend world_after_start 4096 3) 4096 8 = Some 1 <->
   8 <= h_user_credits (started_handle snapshot_sb 111 5) + 3) /\
  (ext4_handle_has_enough_credits snapshot_build
     (run_restart world_after_start 4096 2) 4096 8 = Some 1 <-> 8 <= 2).
Proof.
  pose proof (credit_check_after_grant snapshot_build ref_ops world_after_start
                4096%N (started_handle snapshot_sb 111 5) 8
                eq_refl ref_ops_contract eq_refl eq_refl eq_refl
                ltac:(vm_compute; discriminate)
                ltac:(vm_compute; discriminate)) as [He Hr].
  split.
  - apply (He 3 (run_extend world_after_start 4096 3)).
    + vm_compute. repeat split; try discriminate; reflexivity.
    + reflexivity.
  - apply (Hr 2 (run_restart world_after_start 4096 2)).
    + vm_compute. split; discriminate.
    + reflexivity.
    + reflexivity.
Defined.

Lemma extend_nonpositive_gives_back :
  exists w',
    ext4_journal_extend snapshot_build ref_ops world_after_extend 4096 (-2)
    = Some (0, w') /\
    w_calls w' = w_calls world_after_extend /\
    w_journal w' = w_journal world_after_extend /\
    deref w' 4096 =
      Some (set_h_user_credits
              (h_user_credits (started_handle snapshot_sb 171 8) + -2)
              (set_h_base_credits
                 (h_base_credits (started_handle snapshot_sb 171 8) + -2)
                 (started_handle snapshot_sb 171 8))) /\
    (-2 = 0 -> w' = world_after_extend).
Proof.
  apply (extend_nonpositive snapshot_build ref_ops world_after_extend 4096%N
           (started_handle snapshot_sb 171 8) (-2)
           eq_refl eq_refl eq_refl eq_refl).
  - vm_compute. discriminate.
  - discriminate.
  - vm_compute. repeat split; try discriminate; reflexivity.
Defined.

Lemma credit_check_monotone_sample :
  ext4_handle_has_enough_credits snapshot_build world_after_extend 4096 3
  = Some 1.
Proof.
  apply (credit_check_monotone snapshot_build world_after_extend 4096%N
           (started_handle snapshot_sb 171 8) 8 3 eq_refl eq_refl).
  - discriminate.
  - intros _. vm_compute. repeat split; discriminate.
  - reflexivity.
Defined.

Section PlainAndFailed.

Variable K : kbuild.
Context {J : Type}.
Variable ops : journal_ops J.

(** X11: extend on a valid handle without snapshots in force. The request
    passes through unchanged: the journal is asked for exactly nblocks and
    the wrapper returns its result and leaves the handle as the journal left
    it. The build with the snapshot credits makes no call at all for
    nblocks <= 0 and returns 0 with the world untouched, whereas the build
    without them calls the journal for every nblocks. *)
Theorem extend_without_snapshots (w : world J) (handle : N) (h : handle_s)
    (nblocks : Z) :
  ext4_handle_valid handle = 1 ->
  deref w handle = Some h ->
  snapshots_enabled K h = false ->
  (CONFIG_EXT4_FS_SNAPSHOT_JOURNAL_CREDITS K = true -> nblocks <= 0 ->
   ext4_journal_extend K ops w handle nblocks = Some (0, w)) /\
  (CONFIG_EXT4_FS_SNAPSHOT_JOURNAL_CREDITS K = false \/ 0 < nblocks ->
   exists w',
     ext4_journal_extend K ops w handle nblocks =
       Some ((jbd2_journal_extend ops (w_journal w) h nblocks).1.1, w') /\
     w_calls w' = w_calls w ++ [JExtend handle nblocks] /\
     w_journal w' = (jbd2_journal_extend ops (w_journal w) h nblocks).2 /\
     deref w' handle =
       Some (jbd2_journal_extend ops (w_journal w) h nblocks).1.2).
Proof.
  intros Hv Hd Hs.
  rewrite (ext4_journal_extend_valid K ops w handle h nblocks Hv Hd).
  unfold extend_request. rewrite Hs. split.
  - intros -> Hle. destruct (Z.ltb_spec 0 nblocks); [lia|]. reflexivity.
  - intros Hcall.
    assert (E : (if CONFIG_EXT4_FS_SNAPSHOT_JOURNAL_CREDITS K
                 then if 0 <? nblocks then Some nblocks else None
                 else Some nblocks) = Some nblocks).
    { destruct (CONFIG_EXT4_FS_SNAPSHOT_JOURNAL_CREDITS K); [|reflexivity].
      destruct Hcall as [? | Hlt]; [discriminate|].
      destruct (Z.ltb_spec 0 nblocks); [reflexivity | lia]. }
    rewrite E. unfold call_journal_extend.
    destruct (jbd2_journal_extend ops (w_journal w) h nblocks) as [[err h1] j1].
    cbn. eexists. split; [reflexivity|]. cbn. repeat split.
    unfold deref. cbn. apply lookup_insert_eq.
Qed.

(** X12: a wrapper that fails writes nothing of its own. When extend or
    restart returns a non-zero result on a valid handle, that result is the
    journal's, and the handle object, h_base_credits and h_user_credits
    included, is the one the journal call left; for a journal that refuses an
    extend without touching the handle, the handle after a failed extend is
    the handle before. *)
Theorem failed_wrappers_write_nothing (w : world J) (handle : N) (h : handle_s)
    (nblocks err : Z) (w' : world J) :
  ext4_handle_valid handle = 1 ->
  deref w handle = Some h ->
  err <> 0 ->
  (ext4_journal_extend K ops w handle nblocks = Some (err, w') ->
   exists credits,
     extend_request K h nblocks = Some credits /\
     err = (jbd2_journal_extend ops (w_journal w) h credits).1.1 /\
     deref w' handle = Some (jbd2_journal_extend ops (w_journal w) h credits).1.2 /\
     (journal_contract ops -> deref w' handle = Some h)) /\
  (ext4_journal_restart K ops w handle nblocks = Some (err, w') ->
   err = (jbd2_journal_restart ops (w_journal w) h
            (restart_credits K h nblocks)).1.1 /\
   deref w' handle =
     Some (jbd2_journal_restart ops (w_journal w) h
             (restart_credits K h nblocks)).1.2).
Proof.
  intros Hv Hd Hne. split.
  - rewrite (ext4_journal_extend_valid K ops w handle h nblocks Hv Hd).
    destruct (extend_request K h nblocks) as [credits|];
      [|intros [= E _]; congruence].
    unfold call_journal_extend.
    destruct (jbd2_journal_extend ops (w_journal w) h credits)
      as [[e h1] j1] eqn:EJ.
    cbn. unfold c_true. destruct (Z.eqb_spec e 0) as [-> | Hne'].
    + rewrite andb_comm. cbn.
      destruct (snapshots_enabled K h); intros [= E _]; congruence.
    + rewrite andb_comm. cbn. intros [= <- <-].
      exists credits. rewrite EJ. cbn.
      split; [reflexivity|]. split; [reflexivity|].
      split; [unfold deref; cbn; apply lookup_insert_eq|].
      intros HJ. pose proof (extend_refused ops HJ _ _ _ _ _ _ EJ Hne') as ->.
      unfold deref. cbn. apply lookup_insert_eq.
  - rewrite (ext4_journal_restart_valid K ops w handle h nblocks Hv Hd).
    unfold call_journal_restart.
    destruct (jbd2_journal_restart ops (w_journal w) h (restart_credits K h nblocks))
      as [[e h1] j1].
    cbn. unfold c_true. destruct (Z.eqb_spec e 0) as [-> | Hne'].
    + rewrite andb_comm. cbn.
      destruct (snapshots_enabled K h); intros [= E _]; congruence.
    + rewrite andb_comm. cbn. intros [= <- <-].
      split; [reflexivity|]. unfold deref. cbn. apply lookup_insert_eq.
Qed.

(** X13: ext4_handle_sync on a valid handle sets h_sync and nothing else:
    no journal call, the journal state and every other handle are untouched,
    the credit check gives the same answers, and a second call changes
    nothing more. *)
Theorem handle_sync_sets_flag_only (w : world J) (handle : N) (h : handle_s) :
  ext4_handle_valid handle = 1 ->
  deref w handle = Some h ->
  exists w',
    ext4_handle_sync w handle = Some w' /\
    deref w' handle = Some (set_h_sync true h) /\
    w_calls w' = w_calls w /\ w_journal w' = w_journal w /\
    (forall other, other <> handle -> deref w' other = deref w other) /\
    (forall needed,
       ext4_handle_has_enough_credits K w' handle needed
       = ext4_handle_has_enough_credits K w handle needed) /\
    ext4_handle_sync w' handle = Some w'.
Proof.
  intros Hv Hd. unfold ext4_handle_sync at 1.
  rewrite (c_true_valid_above _ Hv), Hd. cbn.
  eexists. split; [reflexivity|].
  assert (D : deref (store w handle (set_h_sync true h)) handle
              = Some (set_h_sync true h))
    by (unfold deref, store; cbn; apply lookup_insert_eq).
  split; [exact D|]. split; [reflexivity|]. split; [reflexivity|].
  split; [|split].
  - intros other Hne. unfold deref, store. cbn.
    apply lookup_insert_ne. congruence.
  - intros needed.
    rewrite (has_enough_credits_valid K _ handle _ needed Hv D).
    rewrite (has_enough_credits_valid K w handle h needed Hv Hd).
    reflexivity.
  - unfold ext4_handle_sync. rewrite (c_true_valid_above _ Hv), D. cbn.
    f_equal. unfold store, set_w_heap. cbn.
    rewrite insert_insert_eq. reflexivity.
Qed.

(** X14: ext4_update_inode_fsync_trans. With an invalid handle the inode
    keeps both transaction ids. With a valid handle i_sync_tid becomes the
    transaction id of the handle, and i_datasync_tid becomes it too exactly
    when datasync is non-zero and is kept otherwise; so an update without
    datasync after one with datasync, on the same handle, changes nothing. *)
Theorem update_inode_fsync_trans_cases (w : world J) (handle : N)
    (ei : ext4_inode_info) (datasync : Z) :
  (ext4_handle_valid handle = 0 ->
   ext4_update_inode_fsync_trans w handle ei datasync = Some ei) /\
  (forall h,
     ext4_handle_valid handle = 1 ->
     deref w handle = Some h ->
     exists ei',
       ext4_update_inode_fsync_trans w handle ei datasync = Some ei' /\
       i_sync_tid ei' = h_tid h /\
       (datasync = 0 -> i_datasync_tid ei' = i_datasync_tid ei) /\
       (datasync <> 0 -> i_datasync_tid ei' = h_tid h /\
          ext4_update_inode_fsync_trans w handle ei' 0 = Some ei')).
Proof.
  unfold ext4_update_inode_fsync_trans. split.
  - intros ->. reflexivity.
  - intros h Hv Hd. rewrite (c_true_valid_above _ Hv), Hd. cbn.
    unfold c_true. destruct (Z.eqb_spec datasync 0) as [-> | Hne]; cbn.
    + eexists. split; [reflexivity|]. cbn.
      split; [reflexivity|]. split; [reflexivity|]. intros H. contradiction.
    + eexists. split; [reflexivity|]. cbn.
      split; [reflexivity|]. split; [intros E; contradiction|].
      intros _. split; reflexivity.
Qed.

End PlainAndFailed.

Lemma extend_without_snapshots_plain :
  ext4_journal_extend snapshot_build ref_ops
    (ref_world 1000 false 4096 (started_handle plain_sb 31 0)) 4096 0
  = Some (0, ref_world 1000 false 4096 (started_handle plain_sb 31 0)) /\
  exists w',
    ext4_journal_extend snapshot_build ref_ops
      (ref_world 1000 false 4096 (started_handle plain_sb 31 0)) 4096 4
    = Some ((jbd2_journal_extend ref_ops
               (w_journal (ref_world 1000 false 4096
                             (started_handle plain_sb 31 0)))
               (started_handle plain_sb 31 0) 4).1.1, w') /\
    w_calls w' = [] ++ [JExtend 4096 4] /\
    w_journal w' =
      (jbd2_journal_extend ref_ops
         (w_journal (ref_world 1000 false 4096 (started_handle plain_sb 31 0)))
         (started_handle plain_sb 31 0) 4).2 /\
    deref w' 4096 =
      Some (jbd2_journal_extend ref_ops
              (w_journal (ref_world 1000 false 4096
                            (started_handle plain_sb 31 0)))
              (started_handle plain_sb 31 0) 4).1.2.
Proof.
  split.
  - apply (proj1 (extend_without_snapshots snapshot_build ref_ops
             (ref_world 1000 false 4096 (started_handle plain_sb 31 0))
             4096%N (started_handle plain_sb 31 0) 0
             eq_refl eq_refl eq_refl)).
    + reflexivity.
    + discriminate.
  - apply (proj2 (extend_without_snapshots snapshot_build ref_ops
             (ref_world 1000 false 4096 (started_handle plain_sb 31 0))
             4096%N (started_handle plain_sb 31 0) 4
             eq_refl eq_refl eq_refl)).
    right. reflexivity.
Defined.

Example extend_without_snapshots_sample :
  deref (run_extend (ref_world 1000 false 4096 (started_handle plain_sb 31 0))
           4096 4) 4096
  = Some (started_handle plain_sb 35 0).
Proof. reflexivity. Qed.

(** A journal with 10 free blocks refuses the 60 credits of scenario B. *)
Lemma failed_wrappers_write_nothing_refused :
  exists credits,
    extend_request snapshot_build (started_handle snapshot_sb 111 5) 3
    = Some credits /\
    1 = (jbd2_journal_extend ref_ops
           (w_journal (ref_world 10 false 4096 (started_handle snapshot_sb 111 5)))
           (started_handle snapshot_sb 111 5) credits).1.1 /\
    deref (run_extend (ref_world 10 false 4096 (started_handle snapshot_sb 111 5))
             4096 3) 4096
    = Some (jbd2_journal_extend ref_ops
              (w_journal (ref_world 10 false 4096
                            (started_handle snapshot_sb 111 5)))
              (started_handle snapshot_sb 111 5) credits).1.2 /\
    (journal_contract ref_ops ->
     deref (run_extend (ref_world 10 false 4096 (started_handle snapshot_sb 111 5))
              4096 3) 4096
     = Some (started_handle snapshot_sb 111 5)).
Proof.
  apply (proj1 (failed_wrappers_write_nothing snapshot_build ref_ops
           (ref_world 10 false 4096 (started_handle snapshot_sb 111 5))
           4096%N (started_handle snapshot_sb 111 5) 3 1
           (run_extend (ref_world 10 false 4096 (started_handle snapshot_sb 111 5))
              4096 3)
           eq_refl eq_refl ltac:(discriminate))).
  reflexivity.
Defined.

Lemma handle_sync_sets_flag_only_sample :
  exists w',
    ext4_handle_sync world_after_start 4096 = Some w' /\
    deref w' 4096 = Some (set_h_sync true (started_handle snapshot_sb 111 5)) /\
    w_calls w' = w_calls world_after_start /\
    w_journal w' = w_journal world_after_start /\
    (forall other, other <> 4096%N -> deref w' other = deref world_after_start other) /\
    (forall needed,
       ext4_handle_has_enough_credits snapshot_build w' 4096 needed
       = ext4_handle_has_enough_credits snapshot_build world_after_start 4096
           needed) /\
    ext4_handle_sync w' 4096 = Some w'.
Proof.
  apply (handle_sync_sets_flag_only snapshot_build world_after_start 4096%N
           (started_handle snapshot_sb 111 5) eq_refl eq_refl).
Defined.

Example update_inode_fsync_trans_sample :
  ext4_update_inode_fsync_trans world_after_start 4096
    {| i_sync_tid := 0; i_datasync_tid := 0 |} 0
  = Some {| i_sync_tid := 1; i_datasync_tid := 0 |} /\
  ext4_update_inode_fsync_trans world_after_start 4096
    {| i_sync_tid := 0; i_datasync_tid := 0 |} 1
  = Some {| i_sync_tid := 1; i_datasync_tid := 1 |} /\
  ext4_update_inode_fsync_trans world_after_start 0
    {| i_sync_tid := 7; i_datasync_tid := 3 |} 1
  = Some {| i_sync_tid := 7; i_datasync_tid := 3 |}.
Proof. repeat split. Qed.

Section ExtendAfterRestart.

Variable K : kbuild.
Context {J : Type}.
Variable ops : journal_ops J.

(** X17: the price of an extend right after a restart, for counts in range.
    With snapshots enabled and a journal that keeps its contract, after a
    restart for n operations that returned 0 (n >= 0, n representable in the
    counters, 21n+6 as int), an extend by k >= 1 with n + k representable in
    the counters and 21(n+k)+3 as int calls the journal for exactly 21k - 3
    credits, the same for every such n: the restart left the three credits of
    a start in reserve and no more. *)
Theorem extend_after_restart (w : world J) (handle : N) (h : handle_s)
    (n k : Z) (w1 : world J) :
  CONFIG_EXT4_FS_SNAPSHOT_JOURNAL_CREDITS K = true ->
  journal_contract ops ->
  ext4_handle_valid handle = 1 ->
  deref w handle = Some h ->
  EXT4_SNAPSHOTS (h_sb h) = true ->
  0 <= n ->
  int_range (21 * n + 6) ->
  credits_fit K n ->
  ext4_journal_restart K ops w handle n = Some (0, w1) ->
  1 <= k ->
  int_range (n + k) ->
  credits_fit K (n + k) ->
  int_range (21 * (n + k) + 3) ->
  exists err w2,
    ext4_journal_extend K ops w1 handle k = Some (err, w2) /\
    w_calls w2 = w_calls w1 ++ [JExtend handle (21 * k - 3)] /\
    (err = 0 ->
     exists h2,
       deref w2 handle = Some h2 /\ h_user_credits h2 = n + k /\
       h_buffer_credits h2 = 21 * (n + k) + 3).
Proof.
  intros HK HJ Hv Hd Hs Hn Hr Hf E Hk Hnk Hfnk Ht.
  destruct (restart_establishes K ops HK HJ w handle h n w1 Hv Hd Hs Hr Hf E)
    as (h1 & D1 & Hsb & Hu & Hb & Hbuf & _).
  assert (Hs1 : EXT4_SNAPSHOTS (h_sb h1) = true) by (rewrite Hsb; exact Hs).
  assert (Hdelta : EXT4_SNAPSHOT_TRANS_BLOCKS (h_user_credits h1 + k)
                   - h_buffer_credits h1 = 21 * k - 3)
    by (rewrite EXT4_SNAPSHOT_TRANS_BLOCKS_eq, Hu, Hbuf; lia).
  destruct (extend_snapshots_call K ops w1 handle h1 k HK Hv D1 Hs1 HJ)
    as (err & w2 & E2 & _ & Hc & Hok & _).
  - rewrite Hu. exact Hnk.
  - rewrite Hb. exact Hnk.
  - rewrite Hu. exact Hfnk.
  - rewrite Hb. exact Hfnk.
  - rewrite EXT4_SNAPSHOT_TRANS_BLOCKS_eq, Hu. exact Ht.
  - rewrite Hdelta. unfold int_range, INT_MIN, INT_MAX in *. lia.
  - rewrite Hdelta. lia.
  - exists err, w2. split; [exact E2|]. split.
    + rewrite Hc, Hdelta. reflexivity.
    + intros E0. destruct (Hok E0) as (h2 & D2 & Hu2 & _ & Hb2).
      exists h2. split; [exact D2|]. split.
      * rewrite Hu2, Hu. reflexivity.
      * rewrite Hb2, EXT4_SNAPSHOT_TRANS_BLOCKS_eq, Hu. reflexivity.
Qed.

End ExtendAfterRestart.

Lemma extend_after_restart_sample :
  exists err w2,
    ext4_journal_extend snapshot_build ref_ops
      (run_restart world_after_start 4096 2) 4096 4 = Some (err, w2) /\
    w_calls w2 =
      w_calls (run_restart world_after_start 4096 2)
      ++ [JExtend 4096 (21 * 4 - 3)] /\
    (err = 0 ->
     exists h2,
       deref w2 4096 = Some h2 /\ h_user_credits h2 = 2 + 4 /\
       h_buffer_credits h2 = 21 * (2 + 4) + 3).
Proof.
  apply (extend_after_restart snapshot_build ref_ops world_after_start 4096%N
           (started_handle snapshot_sb 111 5) 2 4
           (run_restart world_after_start 4096 2)
           eq_refl ref_ops_contract eq_refl eq_refl eq_refl).
  - discriminate.
  - vm_compute. split; discriminate.
  - reflexivity.
  - reflexivity.
  - discriminate.
  - vm_compute. split; discriminate.
  - reflexivity.
  - vm_compute. split; discriminate.
Defined.

Example extend_after_restart_runs :
  w_calls (run_extend (run_restart world_after_start 4096 2) 4096 4)
  = [JStart 111; JRestart 4096 48; JExtend 4096 81] /\
  deref (run_extend (run_restart world_after_start 4096 2) 4096 4) 4096
  = Some (set_h_tid 2 (started_handle snapshot_sb 129 6)).
Proof. repeat split. Qed.
